(** * Learning Hub API (src/app/api/learning-hub/route.ts)

    A shallow embedding of the learning-hub route: the process-wide TTL
    cache, the hash-derived user profile, the module and assessment
    catalogs and the GET / POST handlers, followed by the properties of
    the route that the specification states.

    Conventions of the embedding.
    - A JavaScript string is the list of its UTF-16 code units
      ([jsstring]); [split('')] and [charCodeAt(0)] read exactly these.
    - A JavaScript number that the route computes is an integer; it is a
      [Z]. The hash accumulator is a double in the source: the embedding
      is exact while its magnitude stays below 2^53, which
      [userHash_magnitude] shows for every string of up to 2^21 units.
    - [Date.now()] is a parameter [now] (milliseconds since the epoch); a
      request is handled at one clock reading.
    - [Math.random()] is a parameter, the rational value of the double it
      returns; the product with 40 is rounded to a double
      ([round_double]) before [Math.floor].
    - [console.log] output is not part of the model; a template literal
      that can throw while building a log line is.
    - [learningCache] is threaded through every function that touches
      it. *)

From Stdlib Require Import ZArith QArith Qround Lia Lqa List Ascii String.
From Corelib Require Import SpecFloat.
From stdpp Require Import base gmap list strings fin_maps.

Local Open Scope Z_scope.

(** ** JavaScript strings *)

Module Js.

Abbreviation jsstring := (list Z).

(** A string constant of the source, unit by unit (ASCII constants only). *)
Fixpoint lit (s : string) : jsstring :=
  match s with
  | EmptyString => []
  | String a r => Z.of_N (N_of_ascii a) :: lit r
  end.

(** Code units are 16-bit. *)
Definition wf_string (s : jsstring) : Prop :=
  Forall (fun c => 0 <= c <= 65535) s.

(** [ToInt32]: reduction modulo 2^32 into [-2^31, 2^31). *)
Definition ToInt32 (z : Z) : Z := (z + 2^31) mod 2^32 - 2^31.

(** [a << n] on numbers: both operands go through the 32-bit conversions,
    the shift count is taken modulo 32. *)
Definition shl (a n : Z) : Z := ToInt32 (Z.shiftl (ToInt32 a) (n mod 32)).

(** [x || d] on [string | null]: null and the empty string are falsy. *)
Definition or_default (x : option jsstring) (d : jsstring) : jsstring :=
  match x with
  | Some (c :: s) => c :: s
  | _ => d
  end.

(** Decimal digits of a natural number, most significant first; [fuel]
    bounds the number of digits. *)
Fixpoint digits (fuel : nat) (n : Z) (acc : jsstring) : jsstring :=
  match fuel with
  | O => acc
  | S f =>
      let acc' := (48 + n mod 10) :: acc in
      if n / 10 =? 0 then acc' else digits f (n / 10) acc'
  end.

(** [String(n)] for an integer [n]. *)
Definition of_int (n : Z) : jsstring :=
  if n <? 0 then 45 :: digits (Z.to_nat (Z.log2 (- n)) + 1) (- n) []
  else digits (Z.to_nat (Z.log2 n) + 1) n [].

(** [String(n).padStart(w, '0')] for [n >= 0]. *)
Definition pad0 (w : nat) (n : Z) : jsstring :=
  let d := of_int n in
  repeat 48 (w - length d) ++ d.

(** 2^e as a rational, for any integer [e]. *)
Definition pow2 (e : Z) : Q :=
  if 0 <=? e then inject_Z (2 ^ e) else / inject_Z (2 ^ (- e)).

(** The binary exponent of a positive rational: 2^e <= x < 2^(e+1). *)
Definition ilog2 (x : Q) : Z :=
  let e0 := Z.log2 (Qnum x) - Z.log2 (Zpos (Qden x)) in
  if Qle_bool (pow2 e0) x then e0 else e0 - 1.

(** The nearest integer, a tie going to the even one. *)
Definition round_half_even (y : Q) : Z :=
  let f := Qfloor y in
  match (y - inject_Z f ?= 1 # 2)%Q with
  | Lt => f
  | Gt => f + 1
  | Eq => if Z.even f then f else f + 1
  end.

(** A positive real rounded to the nearest double: 53 significant bits
    at the exponent of [x], the exponent of the subnormals below
    2^-1022; ties to even. (Overflow to Infinity is not modelled: the
    route rounds products below 40 only.) *)
Definition round_positive (x : Q) : Q :=
  let ulp := pow2 (Z.max (ilog2 x) (-1022) - 52) in
  (inject_Z (round_half_even (x / ulp)) * ulp)%Q.

(** The double that an arithmetic operation returns for the exact
    result [x]. *)
Definition round_double (x : Q) : Q :=
  match (x ?= 0)%Q with
  | Eq => 0%Q
  | Gt => round_positive x
  | Lt => (- round_positive (- x))%Q
  end.

End Js.

Import Js.

(** ** Dates: [new Date().toISOString()] *)

Module JsDate.

(** Days since the epoch to the proleptic Gregorian (year, month, day). *)
Definition civil_from_days (days : Z) : Z * Z * Z :=
  let z := days + 719468 in
  let era := z / 146097 in
  let doe := z - era * 146097 in
  let yoe := (doe - doe / 1460 + doe / 36524 - doe / 146096) / 365 in
  let doy := doe - (365 * yoe + yoe / 4 - yoe / 100) in
  let mp := (5 * doy + 2) / 153 in
  let d := doy - (153 * mp + 2) / 5 + 1 in
  let m := if mp <? 10 then mp + 3 else mp - 9 in
  let y := yoe + era * 400 in
  (if m <=? 2 then y + 1 else y, m, d).

(** Years 0..9999 print with four digits, the others with a sign and six. *)
Definition year_string (y : Z) : jsstring :=
  if (0 <=? y) && (y <=? 9999) then pad0 4 y
  else if y <? 0 then 45 :: pad0 6 (- y)
  else 43 :: pad0 6 y.

(** [new Date(ms).toISOString()]: YYYY-MM-DDTHH:mm:ss.sssZ in UTC. *)
Definition toISOString (ms : Z) : jsstring :=
  let days := ms / 86400000 in
  let rest := ms mod 86400000 in
  let '(y, m, d) := civil_from_days days in
  year_string y ++ lit "-" ++ pad0 2 m ++ lit "-" ++ pad0 2 d ++ lit "T"
    ++ pad0 2 (rest / 3600000) ++ lit ":"
    ++ pad0 2 (rest / 60000 mod 60) ++ lit ":"
    ++ pad0 2 (rest / 1000 mod 60) ++ lit "."
    ++ pad0 3 (rest mod 1000) ++ lit "Z".

(** [s.split('T')[0]]: the units before the first 'T'. *)
Fixpoint before_T (s : jsstring) : jsstring :=
  match s with
  | [] => []
  | c :: r => if c =? 84 then [] else c :: before_T r
  end.

(** [new Date().toISOString().split('T')[0]] at clock reading [now]. *)
Definition today (now : Z) : jsstring := before_T (toISOString now).

End JsDate.

Import JsDate.

(** ** The cache (route.ts, lines 12-58) *)

Section TTLCache.

Context {V : Type}.

(** A cache entry: [{ data, timestamp }]. *)
Record entry := Entry { data : V; timestamp : Z }.

Definition CACHE_DURATION : Z := 30 * 60 * 1000.

(** [getCachedData(key)] at clock reading [now]; [None] is [null]. The
    map is returned as the call leaves it. *)
Definition getCachedData (now : Z) (key : jsstring)
    (learningCache : gmap jsstring entry) : option V * gmap jsstring entry :=
  match learningCache !! key with
  | Some cached =>
      if now - timestamp cached <? CACHE_DURATION
      then (Some (data cached), learningCache)
      else (None, learningCache)
  | None => (None, learningCache)
  end.

(** [setCachedData(key, data)] at clock reading [now]. *)
Definition setCachedData (now : Z) (key : jsstring) (d : V)
    (learningCache : gmap jsstring entry) : unit * gmap jsstring entry :=
  (tt, <[key := Entry d now]> learningCache).

(** [learningCache.delete(key)]. *)
Definition cacheDelete (key : jsstring)
    (learningCache : gmap jsstring entry) : unit * gmap jsstring entry :=
  (tt, delete key learningCache).

(** A history of writes to the map, oldest first. *)
Inductive cache_op :=
| OpSet (now : Z) (key : jsstring) (d : V)
| OpDelete (key : jsstring).

Definition run_op (c : gmap jsstring entry) (o : cache_op) : gmap jsstring entry :=
  match o with
  | OpSet now key d => snd (setCachedData now key d c)
  | OpDelete key => snd (cacheDelete key c)
  end.

Definition run_ops (ops : list cache_op) : gmap jsstring entry :=
  fold_left run_op ops ∅.

(** What the history says about [key]: the value and time of the most
    recent [OpSet] for it, unless a later [OpDelete] removed it. *)
Fixpoint latest_rev (key : jsstring) (rev_ops : list cache_op) : option (V * Z) :=
  match rev_ops with
  | [] => None
  | OpSet now k d :: older =>
      if decide (k = key) then Some (d, now) else latest_rev key older
  | OpDelete k :: older =>
      if decide (k = key) then None else latest_rev key older
  end.

Definition most_recent (key : jsstring) (ops : list cache_op) : option (V * Z) :=
  latest_rev key (rev ops).

End TTLCache.

Arguments entry : clear implicits.
Arguments cache_op : clear implicits.

(** ** Data model (route.ts, lines 16-40) *)

Inductive Difficulty := beginner | intermediate | advanced.

#[global] Instance Difficulty_eq_dec : EqDecision Difficulty.
Proof. solve_decision. Defined.

Definition difficulty_name (d : Difficulty) : jsstring :=
  match d with
  | beginner => lit "beginner"
  | intermediate => lit "intermediate"
  | advanced => lit "advanced"
  end.

Record LearningModule := {
  m_id : jsstring;
  m_title : jsstring;
  m_description : jsstring;
  duration : jsstring;
  xp : Z;
  completed : bool;
  difficulty : Difficulty;
  category : jsstring
}.

Record Achievement := {
  a_id : jsstring;
  a_title : jsstring;
  a_description : jsstring;
  date : jsstring
}.

Record UserProgress := {
  userId : jsstring;
  level : Z;
  currentXP : Z;
  totalXP : Z;
  nextLevel : jsstring;
  achievements : list Achievement;
  completedModules : list jsstring;
  streakDays : Z;
  totalStudyTime : Z
}.

Record Assessment := {
  s_id : jsstring;
  s_title : jsstring;
  s_description : jsstring;
  questions : Z;
  timeLimit : Z;
  s_difficulty : Difficulty;
  xpReward : Z
}.

(** The values the route stores in the cache (the [any] of its entries):
    the three [setCachedData] call sites store a module list, a progress
    object and an assessment list. *)
Inductive jsdata :=
| DModules (l : list LearningModule)
| DProgress (p : UserProgress)
| DAssessments (l : list Assessment).

Abbreviation cache := (gmap jsstring (entry jsdata)).

(** Functions of the route that read or write [learningCache]. *)
Definition Hub (A : Type) : Type := cache -> A * cache.

Definition ret {A} (a : A) : Hub A := fun c => (a, c).

Definition bind {A B} (m : Hub A) (k : A -> Hub B) : Hub B :=
  fun c => let '(a, c') := m c in k a c'.

Notation "'do' x <- m ; k" := (bind m (fun x => k))
  (at level 10, x name, m at level 100, k at level 200).
Notation "'run' m ; k" := (bind m (fun _ => k))
  (at level 10, m at level 100, k at level 200).

(** ** The derived profile (route.ts, lines 160-231) *)

(** The reducer [(a, b) => ((a << 5) - a) + b.charCodeAt(0)]; [b] is a
    one-unit string, given by its unit. *)
Definition hash_step (a b : Z) : Z := (shl a 5 - a) + b.

(** [userId.split('').reduce(hash_step, 0)]. *)
Definition userHash (userId : jsstring) : Z := fold_left hash_step userId 0.

(** [levels[Math.min(level - 1, levels.length - 1)] || 'Master Navigator'];
    an index below 0 reads [undefined]. *)
Definition getLevelName (lvl : Z) : jsstring :=
  let levels := [lit "Novice Farmer"; lit "Farm Analyst"; lit "Data Specialist";
                 lit "Sustainability Expert"; lit "Master Navigator"] in
  let i := Z.min (lvl - 1) (Z.of_nat (length levels) - 1) in
  if i <? 0 then lit "Master Navigator"
  else default (lit "Master Navigator") (levels !! Z.to_nat i).

(** [arr.slice(0, n)] for [n >= 0]. *)
Definition slice0 {A} (n : Z) (l : list A) : list A := take (Z.to_nat n) l.

Definition getUserAchievements (now : Z) (userId : jsstring) : list Achievement :=
  let userHash := Z.abs (userHash userId) in
  let achievementCount := userHash mod 3 + 1 in
  let allAchievements := [
    {| a_id := lit "first-steps"; a_title := lit "First Steps";
       a_description := lit "Completed your first learning module";
       date := today now |};
    {| a_id := lit "data-explorer"; a_title := lit "Data Explorer";
       a_description := lit "Analyzed your first NASA dataset";
       date := today now |};
    {| a_id := lit "quick-learner"; a_title := lit "Quick Learner";
       a_description := lit "Completed 3 modules in one day";
       date := today now |} ] in
  slice0 achievementCount allAchievements.

Definition getUserCompletedModules (userId : jsstring) : list jsstring :=
  let userHash := Z.abs (userHash userId) in
  let completedCount := userHash mod 3 in
  let possibleModules :=
    [lit "nasa-data-intro"; lit "satellite-imagery"; lit "ndvi-analysis"] in
  slice0 completedCount possibleModules.

Definition getUserProgressFromDatabase (now : Z) (uid : jsstring) : UserProgress :=
  let userHash := userHash uid in
  let lvl := Z.max 1 (Z.abs userHash mod 5 + 1) in
  let currentXP := Z.abs userHash mod 1000 + 500 in
  let baseXP := lvl * 1000 in
  {| userId := uid;
     level := lvl;
     currentXP := currentXP;
     totalXP := baseXP;
     nextLevel := getLevelName (lvl + 1);
     achievements := getUserAchievements now uid;
     completedModules := getUserCompletedModules uid;
     streakDays := Z.abs userHash mod 30 + 1;
     totalStudyTime := Z.abs userHash mod 500 + 100 |}.

Definition getDefaultUserProgress (uid : jsstring) : UserProgress :=
  {| userId := uid; level := 1; currentXP := 0; totalXP := 1000;
     nextLevel := lit "Farm Analyst"; achievements := [];
     completedModules := []; streakDays := 1; totalStudyTime := 0 |}.

(** The polynomial hash as the specification words it:
    [acc = acc*31 + charCode], starting from 0. *)
Definition polyHash (s : jsstring) : Z :=
  fold_left (fun acc c => acc * 31 + c) s 0.

(** Whether the accumulator is below 2^26 in magnitude before every step
    of the polynomial fold from [a]: then [a << 5] is [32 * a]. *)
Fixpoint stays_below_2_26 (s : jsstring) (a : Z) : bool :=
  match s with
  | [] => true
  | c :: r => ((- 2^26 <=? a) && (a <? 2^26)) && stays_below_2_26 r (a * 31 + c)
  end.

(** ** The catalogs (route.ts, lines 79-140 and 249-271) *)

Definition baseModules : list LearningModule := [
  {| m_id := lit "nasa-data-intro";
     m_title := lit "NASA Earth Observation Fundamentals";
     m_description := lit "Learn to interpret satellite data for agricultural applications";
     duration := lit "20 min"; xp := 150; completed := false;
     difficulty := beginner; category := lit "fundamentals" |};
  {| m_id := lit "satellite-imagery";
     m_title := lit "Satellite Imagery Analysis";
     m_description := lit "Master MODIS and Landsat data interpretation";
     duration := lit "25 min"; xp := 200; completed := false;
     difficulty := intermediate; category := lit "analysis" |};
  {| m_id := lit "ndvi-analysis";
     m_title := lit "NDVI and Vegetation Health";
     m_description := lit "Monitor crop health using vegetation indices";
     duration := lit "30 min"; xp := 250; completed := false;
     difficulty := intermediate; category := lit "monitoring" |};
  {| m_id := lit "soil-moisture";
     m_title := lit "SMAP Soil Moisture Data";
     m_description := lit "Optimize irrigation using soil moisture measurements";
     duration := lit "35 min"; xp := 300; completed := false;
     difficulty := advanced; category := lit "precision-agriculture" |};
  {| m_id := lit "climate-adaptation";
     m_title := lit "Climate Change Adaptation";
     m_description := lit "Long-term planning using climate data trends";
     duration := lit "40 min"; xp := 400; completed := false;
     difficulty := advanced; category := lit "sustainability" |} ].

(** A [string | undefined] argument is truthy when it is a non-empty string. *)
Definition truthy_string (x : option jsstring) : bool :=
  match x with
  | Some (_ :: _) => true
  | _ => false
  end.

(** [generateDynamicModules(level, userId)]; [module.difficulty === level]
    compares the difficulty's name with the argument. *)
Definition generateDynamicModules (lvl uid : option jsstring) : list LearningModule :=
  if truthy_string lvl && negb (bool_decide (lvl = Some (lit "all")))
  then filter (fun module => Some (difficulty_name (difficulty module)) = lvl) baseModules
  else baseModules.

Definition generateDynamicAssessments (uid : option jsstring) : list Assessment := [
  {| s_id := lit "nasa-fundamentals"; s_title := lit "NASA Data Fundamentals";
     s_description := lit "Test your understanding of satellite data applications";
     questions := 10; timeLimit := 15; s_difficulty := beginner; xpReward := 200 |};
  {| s_id := lit "satellite-analysis"; s_title := lit "Satellite Data Analysis";
     s_description := lit "Advanced assessment on satellite imagery interpretation";
     questions := 15; timeLimit := 25; s_difficulty := intermediate; xpReward := 350 |} ].

(** ** Cached fetchers (route.ts, lines 61-77, 142-158, 233-247) *)

(** The key [`modules_${level || 'all'}_${userId || 'guest'}`]. *)
Definition modules_key (lvl uid : option jsstring) : jsstring :=
  lit "modules_" ++ or_default lvl (lit "all") ++ lit "_" ++ or_default uid (lit "guest").

(** The key [`user_progress_${userId}`]. *)
Definition progress_key (uid : jsstring) : jsstring := lit "user_progress_" ++ uid.

(** The key [`assessments_${userId || 'guest'}`]. *)
Definition assessments_key (uid : option jsstring) : jsstring :=
  lit "assessments_" ++ or_default uid (lit "guest").

(** [if (cached) return cached]: every stored value is an array or an
    object, hence truthy. *)
Definition fetchLearningModules (now : Z) (lvl uid : option jsstring) : Hub jsdata :=
  let cacheKey := modules_key lvl uid in
  do cached <- getCachedData now cacheKey;
  match cached with
  | Some d => ret d
  | None =>
      let modules := generateDynamicModules lvl uid in
      run setCachedData now cacheKey (DModules modules);
      ret (DModules modules)
  end.

Definition fetchUserProgress (now : Z) (uid : jsstring) : Hub jsdata :=
  let cacheKey := progress_key uid in
  do cached <- getCachedData now cacheKey;
  match cached with
  | Some d => ret d
  | None =>
      let progress := getUserProgressFromDatabase now uid in
      run setCachedData now cacheKey (DProgress progress);
      ret (DProgress progress)
  end.

Definition fetchAssessments (now : Z) (uid : option jsstring) : Hub jsdata :=
  let cacheKey := assessments_key uid in
  do cached <- getCachedData now cacheKey;
  match cached with
  | Some d => ret d
  | None =>
      let assessments := generateDynamicAssessments uid in
      run setCachedData now cacheKey (DAssessments assessments);
      ret (DAssessments assessments)
  end.

(** ** Module completion and XP (route.ts, lines 273-303) *)

#[local] Set Warnings "-register-all".

(** A parsed JSON request body. A number is given by the value of the
    double it parses to. *)
Inductive json :=
| JNull
| JBool (b : bool)
| JNum (x : Q)
| JStr (s : jsstring)
| JArr (l : list json)
| JObj (fields : list (jsstring * json)).

(** Truthiness of a body field; [None] is [undefined]. *)
Definition truthy (v : option json) : bool :=
  match v with
  | None | Some JNull => false
  | Some (JBool b) => b
  | Some (JNum x) => negb (Qeq_bool x 0)
  | Some (JStr s) => negb (bool_decide (s = []))
  | Some (JArr _) | Some (JObj _) => true
  end.

(** [body.name] on a parsed body: the last member of that name of an
    object, [undefined] on anything else. *)
Fixpoint member (name : jsstring) (fields : list (jsstring * json)) : option json :=
  match fields with
  | [] => None
  | (k, v) :: rest =>
      match member name rest with
      | Some w => Some w
      | None => if decide (k = name) then Some v else None
      end
  end.

Definition get_field (body : json) (name : jsstring) : option json :=
  match body with
  | JObj fields => member name fields
  | _ => None
  end.

(** Whether [`${v}`] evaluates: an object that has a member named
    [toString] has no callable conversion and the template throws a
    TypeError; an array converts its elements. *)
Fixpoint stringifies (v : json) : bool :=
  match v with
  | JObj fields => negb (bool_decide (is_Some (member (lit "toString") fields)))
  | JArr l => forallb stringifies l
  | _ => true
  end.

(** [v === 'name'] for a string constant. *)
Definition strict_eq (v : option json) (name : jsstring) : bool :=
  match v with
  | Some (JStr s) => bool_decide (s = name)
  | _ => false
  end.

Definition is_null (v : json) : bool :=
  match v with
  | JNull => true
  | _ => false
  end.

Definition template_ok (v : option json) : bool :=
  match v with
  | Some j => stringifies j
  | None => true
  end.

(** [updateModuleProgress(userId, moduleId, completed)]: the log line is
    built inside the [try]; when it throws, nothing is deleted and the
    result is [false]. *)
Definition updateModuleProgress (uid : jsstring) (moduleId : option json)
    (completed : bool) : Hub bool :=
  if template_ok moduleId then
    run cacheDelete (progress_key uid);
    run cacheDelete (lit "modules_all_" ++ uid);
    ret true
  else ret false.

(** [awardXP(userId, xpAmount)]. *)
Definition awardXP (uid : jsstring) (xpAmount : Z) : Hub bool :=
  run cacheDelete (progress_key uid);
  ret true.

(** ** Module content (route.ts, lines 305-367) *)

Record ModuleContent := {
  personalizedTips : list jsstring;
  recommendedNext : option jsstring;
  difficultyAdjustment : jsstring;
  estimatedTime : jsstring
}.

Definition generatePersonalizedTips (userProgress : UserProgress) : list jsstring :=
  let tips := [
    lit "Great job reaching Level " ++ of_int (level userProgress)
      ++ lit "! Keep up the momentum.";
    lit "Try applying these concepts to real NASA datasets for better retention." ] in
  if 7 <? streakDays userProgress
  then tips ++ [ lit "Amazing " ++ of_int (streakDays userProgress)
                   ++ lit "-day streak! You're on fire! " ++ [55357; 56613] ]
  else tips.

Definition getRecommendedModule (userProgress : UserProgress) : option jsstring :=
  let completed := completedModules userProgress in
  if bool_decide (length completed = 0%nat) then Some (lit "nasa-data-intro")
  else if negb (bool_decide (lit "satellite-imagery" ∈ completed))
  then Some (lit "satellite-imagery")
  else Some (lit "ndvi-analysis").

Definition getDifficultyLevel (userProgress : UserProgress) : jsstring :=
  if 3 <=? level userProgress then lit "advanced"
  else if 2 <=? level userProgress then lit "intermediate"
  else lit "beginner".

Definition getEstimatedTime (moduleId : jsstring) (userProgress : UserProgress) : jsstring :=
  let baseTime := 20 in
  let adjustment := if 2 <? level userProgress then -5 else 5 in
  of_int (baseTime + adjustment) ++ lit " min".

(** [generateModuleContent(moduleId, userId)]. The progress comes out of
    the cache untyped; on anything but a progress object
    [completed.length] throws and the [catch] returns the fallback. *)
Definition generateModuleContent (now : Z) (moduleId uid : jsstring) : Hub ModuleContent :=
  do userProgress <- fetchUserProgress now uid;
  match userProgress with
  | DProgress p =>
      ret {| personalizedTips := generatePersonalizedTips p;
             recommendedNext := getRecommendedModule p;
             difficultyAdjustment := getDifficultyLevel p;
             estimatedTime := getEstimatedTime moduleId p |}
  | _ =>
      ret {| personalizedTips := [lit "Welcome to the learning module!"];
             recommendedNext := None;
             difficultyAdjustment := lit "standard";
             estimatedTime := lit "20 min" |}
  end.

(** ** The route handlers (route.ts, lines 369-566) *)

(** [searchParams]: the query pairs in order; [get] reads the first value
    of a name, [None] is [null]. *)
Fixpoint searchParams_get (name : jsstring) (q : list (jsstring * jsstring))
    : option jsstring :=
  match q with
  | [] => None
  | (k, v) :: rest => if decide (k = name) then Some v else searchParams_get name rest
  end.

(** Exceptions that reach the handlers' [catch]. *)
Inductive js_error :=
| SyntaxError_json           (* request.json() rejects *)
| TypeError_destructure      (* const { action, moduleId } = null *)
| TypeError_template         (* a template literal cannot convert a value *)
| TypeError_not_a_function.  (* allModules.find is not a function *)

Record CacheInfo := { cached : bool; ci_timestamp : jsstring }.

Record LeaderboardRow := {
  rank : Z;
  name : jsstring;
  row_xp : option Z;   (* [undefined] when read off a non-progress value *)
  row_level : jsstring
}.

(** What [allModules.find(m => m.id === moduleId)] yields on an array. *)
Inductive found_item :=
| FoundModule (m : LearningModule)
| FoundAssessment (a : Assessment).

(** The JSON bodies the handlers send. *)
Inductive response_body :=
| ModulesBody (modules : jsdata) (totalModules : option Z)
    (categories : list jsstring) (cache_info : CacheInfo)
| ProgressBody (progress : jsdata) (cache_info : CacheInfo)
| ModuleContentBody (module : found_item) (dynamic : ModuleContent)
    (userProgress : jsdata)
| AssessmentsBody (assessments : jsdata) (userCompletedAssessments : list jsstring)
| LeaderboardBody (leaderboard : list LeaderboardRow) (userRank totalUsers : Z)
| ModuleStartedBody (message : jsstring) (xpAwarded : Z)
| ModuleCompletedBody (message : jsstring) (xpAwarded : Z) (newXP : option Z)
| AssessmentBody (score xpEarned : Z) (passed : bool) (newTotalXP : option Z)
| ErrorBody (error : jsstring) (details : option js_error).

Record response := { status : Z; body : response_body }.

(** [NextResponse.json(body)] and [NextResponse.json(body, { status })]. *)
Definition ok (b : response_body) : response := {| status := 200; body := b |}.
Definition fail (st : Z) (msg : jsstring) : response :=
  {| status := st; body := ErrorBody msg None |}.

(** Property reads on a value that came out of the cache. *)
Definition length_of (d : jsdata) : option Z :=
  match d with
  | DModules l => Some (Z.of_nat (length l))
  | DAssessments l => Some (Z.of_nat (length l))
  | DProgress _ => None
  end.

Definition currentXP_of (d : jsdata) : option Z :=
  match d with
  | DProgress p => Some (currentXP p)
  | _ => None
  end.

(** [getLevelName(currentUser.level)]; on [undefined] the index is NaN. *)
Definition levelName_of (d : jsdata) : jsstring :=
  match d with
  | DProgress p => getLevelName (level p)
  | _ => lit "Master Navigator"
  end.

(** [allModules.find(m => m.id === moduleId)]; [inr] when [find] is not
    a function of the value. *)
Definition find_module (allModules : jsdata) (moduleId : jsstring)
    : option found_item + js_error :=
  match allModules with
  | DModules l =>
      inl (FoundModule <$> List.find (fun m => bool_decide (m_id m = moduleId)) l)
  | DAssessments l =>
      inl (FoundAssessment <$> List.find (fun a => bool_decide (s_id a = moduleId)) l)
  | DProgress _ => inr TypeError_not_a_function
  end.

Definition GET (now : Z) (searchParams : list (jsstring * jsstring)) : Hub response :=
  let action := searchParams_get (lit "action") searchParams in
  let moduleId := searchParams_get (lit "moduleId") searchParams in
  let uid := or_default (searchParams_get (lit "userId") searchParams) (lit "guest") in
  if bool_decide (action = Some (lit "modules")) then
    let lvl := or_default (searchParams_get (lit "level") searchParams) (lit "all") in
    do modulesList <- fetchLearningModules now (Some lvl) (Some uid);
    ret (ok (ModulesBody modulesList (length_of modulesList)
               [lit "fundamentals"; lit "analysis"; lit "monitoring";
                lit "precision-agriculture"; lit "sustainability"]
               {| cached := false; ci_timestamp := toISOString now |}))
  else if bool_decide (action = Some (lit "progress")) then
    do userProgress <- fetchUserProgress now uid;
    ret (ok (ProgressBody userProgress
               {| cached := false; ci_timestamp := toISOString now |}))
  else if bool_decide (action = Some (lit "module-content")) then
    match moduleId with
    | Some (c :: m) =>
        let moduleId := c :: m in
        do allModules <- fetchLearningModules now (Some (lit "all")) (Some uid);
        match find_module allModules moduleId with
        | inr e =>
            ret {| status := 500;
                   body := ErrorBody (lit "Failed to fetch learning data") (Some e) |}
        | inl None => ret (fail 404 (lit "Module not found"))
        | inl (Some foundModule) =>
            do dynamicContent <- generateModuleContent now moduleId uid;
            do userProgress <- fetchUserProgress now uid;
            ret (ok (ModuleContentBody foundModule dynamicContent userProgress))
        end
    | _ => ret (fail 400 (lit "Module ID required"))
    end
  else if bool_decide (action = Some (lit "assessments")) then
    do assessments <- fetchAssessments now (Some uid);
    ret (ok (AssessmentsBody assessments []))
  else if bool_decide (action = Some (lit "leaderboard")) then
    do currentUser <- fetchUserProgress now uid;
    let mockLeaderboard := [
      {| rank := 1; name := lit "NASA Explorer"; row_xp := Some 5420;
         row_level := lit "Sustainability Expert" |};
      {| rank := 2; name := lit "Farm Innovator"; row_xp := Some 4890;
         row_level := lit "Sustainability Expert" |};
      {| rank := 3; name := lit "You"; row_xp := currentXP_of currentUser;
         row_level := levelName_of currentUser |};
      {| rank := 4; name := lit "Earth Observer"; row_xp := Some 1180;
         row_level := lit "Farm Analyst" |};
      {| rank := 5; name := lit "Crop Master"; row_xp := Some 980;
         row_level := lit "Farm Analyst" |} ] in
    ret (ok (LeaderboardBody mockLeaderboard 3 1247))
  else ret (fail 400 (lit "Invalid action")).

(** [Math.floor(Math.random() * 40) + 60] for the draw [random], a
    double: the product of the two doubles is rounded to a double, then
    floored. *)
Definition mockScoreOf (random : Q) : Z :=
  Qfloor (round_double (random * 40)) + 60.

(** [POST]: [request_body] is what [request.json()] resolves to, [None]
    when it rejects; [random] is the value [Math.random()] returns if the
    handler calls it. *)
Definition POST (now : Z) (random : Q) (searchParams : list (jsstring * jsstring))
    (request_body : option json) : Hub response :=
  let uid := or_default (searchParams_get (lit "userId") searchParams) (lit "guest") in
  let failed e :=
    ret {| status := 500; body := ErrorBody (lit "Failed to process request") (Some e) |} in
  match request_body with
  | None => failed SyntaxError_json
  | Some body =>
      if is_null body then failed TypeError_destructure else
      let action := get_field body (lit "action") in
      let moduleId := get_field body (lit "moduleId") in
      if negb (template_ok action) then failed TypeError_template
      else if strict_eq action (lit "start-module") then
        if negb (truthy moduleId) then ret (fail 400 (lit "Module ID required"))
        else
          do success <- updateModuleProgress uid moduleId false;
          run (if success : bool then awardXP uid 50 else ret true);
          ret (ok (ModuleStartedBody (lit "Module started successfully") 50))
      else if strict_eq action (lit "complete-module") then
        if negb (truthy moduleId) then ret (fail 400 (lit "Module ID required"))
        else
          do completed <- updateModuleProgress uid moduleId true;
          run (if completed : bool then awardXP uid 150 else ret true);
          do progress <- fetchUserProgress now uid;
          ret (ok (ModuleCompletedBody (lit "Module completed successfully") 150
                     (currentXP_of progress)))
      else if strict_eq action (lit "submit-assessment") then
        let assessmentId := get_field body (lit "assessmentId") in
        let answers := get_field body (lit "answers") in
        if negb (truthy assessmentId) || negb (truthy answers)
        then ret (fail 400 (lit "Assessment ID and answers required"))
        else
          let mockScore := mockScoreOf random in
          let xpEarned := if 70 <? mockScore then 200 else 100 in
          run awardXP uid xpEarned;
          do progress <- fetchUserProgress now uid;
          ret (ok (AssessmentBody mockScore xpEarned (70 <=? mockScore)
                     (currentXP_of progress)))
      else ret (fail 400 (lit "Invalid POST action"))
  end.

(** ** Vocabulary of the statements *)

(** The actions the two handlers dispatch on. *)
Definition GET_actions : list jsstring :=
  [lit "modules"; lit "progress"; lit "module-content"; lit "assessments";
   lit "leaderboard"].

Definition POST_actions : list jsstring :=
  [lit "start-module"; lit "complete-module"; lit "submit-assessment"].

(** The [cache.cached] member of a response that has one. *)
Definition response_cached (r : response) : option bool :=
  match body r with
  | ModulesBody _ _ _ ci => Some (cached ci)
  | ProgressBody _ ci => Some (cached ci)
  | _ => None
  end.

(** The cache keys the fetchers build for the user [u]. *)
Inductive key_of_user (u : jsstring) : jsstring -> Prop :=
| KeyProgress : key_of_user u (progress_key u)
| KeyAssessments : key_of_user u (assessments_key (Some u))
| KeyModules lvl : key_of_user u (modules_key (Some lvl) (Some u)).

(** The key [`modules_all_${userId}`] that [updateModuleProgress] deletes. *)
Definition modules_all_key (uid : jsstring) : jsstring := lit "modules_all_" ++ uid.

(** The categories every modules response lists. *)
Definition categories_list : list jsstring :=
  [lit "fundamentals"; lit "analysis"; lit "monitoring";
   lit "precision-agriculture"; lit "sustainability"].

(** The level names the catalog filter recognises. *)
Definition level_names : list jsstring :=
  [lit "all"; lit "beginner"; lit "intermediate"; lit "advanced"].

(** ** The states the process reaches *)

(** A request to the route. *)
Inductive request :=
| ReqGET (searchParams : list (jsstring * jsstring))
| ReqPOST (random : Q) (searchParams : list (jsstring * jsstring))
    (request_body : option json).

Definition handle (now : Z) (r : request) : Hub response :=
  match r with
  | ReqGET q => GET now q
  | ReqPOST random q b => POST now random q b
  end.

(** The cache starts empty and changes only while a request is handled. *)
Inductive reachable : cache -> Prop :=
| reachable_start : reachable ∅
| reachable_step c now r : reachable c -> reachable (snd (handle now r c)).

(** An entry holds what one of the three fetchers stores under its key. *)
Definition entry_sound (k : jsstring) (e : entry jsdata) : Prop :=
  (exists lvl uid, k = modules_key lvl uid /\
                   data e = DModules (generateDynamicModules lvl uid)) \/
  (exists uid, k = progress_key uid /\
               data e = DProgress (getUserProgressFromDatabase (timestamp e) uid)) \/
  (exists uid, k = assessments_key uid /\
               data e = DAssessments (generateDynamicAssessments uid)).

Definition cache_sound (c : cache) : Prop :=
  forall k e, c !! k = Some e -> entry_sound k e.

Definition keeps_sound {A} (m : Hub A) : Prop :=
  forall c, cache_sound c -> cache_sound (snd (m c)).

(** ** Vocabulary of the further properties *)

(** The level titles of [getLevelName], first level first. *)
Definition level_titles : list jsstring :=
  [lit "Novice Farmer"; lit "Farm Analyst"; lit "Data Specialist";
   lit "Sustainability Expert"; lit "Master Navigator"].

(** The module ids [getUserCompletedModules] and [getRecommendedModule]
    work with. *)
Definition possible_module_ids : list jsstring :=
  [lit "nasa-data-intro"; lit "satellite-imagery"; lit "ndvi-analysis"].

(** The ids of the achievement catalog of [getUserAchievements]. *)
Definition achievement_ids : list jsstring :=
  [lit "first-steps"; lit "data-explorer"; lit "quick-learner"].

(** A handler step that leaves every key outside [keys] as it was. *)
Definition touches_only {A} (keys : list jsstring) (m : Hub A) : Prop :=
  forall (c : cache) k, k ∉ keys -> snd (m c) !! k = c !! k.

(** A handler step, run at clock reading [now], that removes no entry and
    replaces none that is still fresh. *)
Definition keeps_entries {A} (now : Z) (m : Hub A) : Prop :=
  forall (c : cache) k e,
    c !! k = Some e ->
    exists e', snd (m c) !! k = Some e' /\
               (now - timestamp e < CACHE_DURATION -> e' = e).

(** The body of an error response. *)
Definition is_error (b : response_body) : bool :=
  match b with
  | ErrorBody _ _ => true
  | _ => false
  end.

(** A response is a success (200, a data body) or an error (400, 404 or
    500, an error body). *)
Definition well_formed (r : response) : Prop :=
  (status r = 200 /\ is_error (body r) = false) \/
  ((status r = 400 \/ status r = 404 \/ status r = 500) /\ is_error (body r) = true).

(** A handler step whose response is well formed in every cache state. *)
Definition answers_well (m : Hub response) : Prop :=
  forall c : cache, well_formed (fst (m c)).

(** * Properties *)

(** ** The embedding on sample inputs *)

Example today_epoch : today 0 = lit "1970-01-01".
Proof. reflexivity. Qed.

Example iso_sample :
  toISOString 1793575845123 = lit "2026-11-01T23:30:45.123Z".
Proof. vm_compute. reflexivity. Qed.

Example iso_before_epoch : toISOString (-1) = lit "1969-12-31T23:59:59.999Z".
Proof. vm_compute. reflexivity. Qed.

Example iso_leap_day : today 951782400000 = lit "2000-02-29".
Proof. vm_compute. reflexivity. Qed.

Example iso_wide_year :
  toISOString 253402300800000 = lit "+010000-01-01T00:00:00.000Z".
Proof. vm_compute. reflexivity. Qed.

Example of_int_samples :
  of_int 0 = lit "0" /\ of_int 25 = lit "25" /\ of_int 1452 = lit "1452" /\
  of_int (-5) = lit "-5".
Proof. repeat split; reflexivity. Qed.

(** The double nearest 0.3 is 5404319552844595 / 2^54: its exact product
    with 40 is below 12 and rounds to the double 12, as the IEEE 754
    multiplication of the Standard Library's [SpecFloat] does. *)
Example score_at_double_0_3 :
  Qfloor ((5404319552844595 # 2 ^ 54) * 40) = 11 /\
  mockScoreOf (5404319552844595 # 2 ^ 54) = 72 /\
  SFmul 53 1024 (S754_finite false 5404319552844595 (-54))
    (S754_finite false 5629499534213120 (-47))
  = S754_finite false 6755399441055744 (-49) /\
  (inject_Z 6755399441055744 * pow2 (-49) == 12)%Q.
Proof. vm_compute. repeat split. Qed.

Example score_at_largest_draw :
  mockScoreOf (1 - (1 # 2 ^ 53)) = 99 /\ mockScoreOf 0 = 60 /\ mockScoreOf (1 # 4) = 70.
Proof. vm_compute. repeat split. Qed.

Example userHash_guest : userHash (lit "guest") = 98708952.
Proof. reflexivity. Qed.

Example userHash_wraps : userHash (lit "user123") = -147178873.
Proof. vm_compute. reflexivity. Qed.

Example profile_of_empty_userId now :
  let p := getUserProgressFromDatabase now [] in
  level p = 1 /\ currentXP p = 500 /\ totalXP p = 1000 /\ streakDays p = 1 /\
  totalStudyTime p = 100 /\ completedModules p = [] /\
  length (achievements p) = 1%nat.
Proof. repeat split; reflexivity. Qed.

Example profile_of_guest :
  let p := getUserProgressFromDatabase 0 (lit "guest") in
  level p = 3 /\ currentXP p = 1452 /\ totalXP p = 3000 /\ streakDays p = 13 /\
  nextLevel p = lit "Sustainability Expert".
Proof. repeat split; reflexivity. Qed.


(** ** 32-bit arithmetic and the hash *)

Lemma ToInt32_range z : - 2^31 <= ToInt32 z < 2^31.
Proof.
  unfold ToInt32.
  pose proof (Z.mod_pos_bound (z + 2^31) (2^32) ltac:(lia)). lia.
Qed.

Lemma ToInt32_small z : - 2^31 <= z < 2^31 -> ToInt32 z = z.
Proof.
  intros Hz. unfold ToInt32. rewrite Z.mod_small by lia. lia.
Qed.

Lemma ToInt32_congr z : ToInt32 z mod 2^32 = z mod 2^32.
Proof.
  unfold ToInt32.
  rewrite <- Zminus_mod_idemp_l, Z.mod_mod by lia.
  rewrite Zminus_mod_idemp_l. f_equal. lia.
Qed.

Lemma shl_5_congr a : shl a 5 mod 2^32 = (32 * a) mod 2^32.
Proof.
  unfold shl. rewrite ToInt32_congr.
  change (5 mod 32) with 5. rewrite Z.shiftl_mul_pow2 by lia.
  change (2 ^ 5) with 32.
  rewrite <- Zmult_mod_idemp_l, ToInt32_congr, Zmult_mod_idemp_l.
  f_equal. lia.
Qed.

Lemma shl_5_exact a : - 2^26 <= a < 2^26 -> shl a 5 = 32 * a.
Proof.
  intros Ha. unfold shl.
  rewrite (ToInt32_small a) by lia.
  change (5 mod 32) with 5. rewrite Z.shiftl_mul_pow2 by lia.
  change (2 ^ 5) with 32. rewrite ToInt32_small; lia.
Qed.

Lemma hash_step_congr a b : hash_step a b mod 2^32 = (a * 31 + b) mod 2^32.
Proof.
  unfold hash_step.
  rewrite <- Zplus_mod_idemp_l, <- Zminus_mod_idemp_l, shl_5_congr.
  rewrite Zminus_mod_idemp_l, Zplus_mod_idemp_l. f_equal. lia.
Qed.

Lemma hash_step_exact a b : - 2^26 <= a < 2^26 -> hash_step a b = a * 31 + b.
Proof. intros Ha. unfold hash_step. rewrite shl_5_exact by exact Ha. lia. Qed.

Lemma hash_step_magnitude a b :
  0 <= b <= 65535 -> Z.abs (hash_step a b) <= Z.abs a + (2^31 + 65535).
Proof.
  intros Hb. unfold hash_step, shl.
  pose proof (ToInt32_range (Z.shiftl (ToInt32 a) (5 mod 32))) as Hx.
  set (x := ToInt32 _) in *. clearbody x. lia.
Qed.

Lemma fold_hash_magnitude s : forall a,
  wf_string s ->
  Z.abs (fold_left hash_step s a) <= Z.abs a + Z.of_nat (length s) * (2^31 + 65535).
Proof.
  induction s as [|c s IH]; intros a Hs; simpl fold_left.
  - simpl length. lia.
  - apply Forall_cons in Hs as [Hc Hs].
    specialize (IH (hash_step a c) Hs).
    pose proof (hash_step_magnitude a c Hc).
    rewrite length_cons, Nat2Z.inj_succ. lia.
Qed.

(** The accumulator of [userHash] is an integer of magnitude below 2^53,
    which a double holds exactly, for every string of up to 2^21 units. *)
Lemma userHash_magnitude s :
  wf_string s -> Z.of_nat (length s) <= 2^21 -> Z.abs (userHash s) < 2^53.
Proof.
  intros Hs Hlen. unfold userHash.
  pose proof (fold_hash_magnitude s 0 Hs). simpl Z.abs in H. lia.
Qed.

Lemma fold_hash_congr s : forall a b,
  a mod 2^32 = b mod 2^32 ->
  fold_left hash_step s a mod 2^32
  = fold_left (fun acc c => acc * 31 + c) s b mod 2^32.
Proof.
  induction s as [|c s IH]; intros a b Hab; simpl fold_left; [exact Hab|].
  apply IH. rewrite hash_step_congr.
  rewrite <- Zplus_mod_idemp_l, <- Zmult_mod_idemp_l, Hab.
  rewrite Zmult_mod_idemp_l, Zplus_mod_idemp_l. reflexivity.
Qed.

Lemma fold_hash_exact s : forall a,
  stays_below_2_26 s a = true ->
  fold_left hash_step s a = fold_left (fun acc c => acc * 31 + c) s a.
Proof.
  induction s as [|c s IH]; intros a Hfit; simpl in *; [reflexivity|].
  apply andb_true_iff in Hfit as [Ha Hrest].
  apply andb_true_iff in Ha as [Hlo Hhi].
  rewrite hash_step_exact by lia.
  apply IH, Hrest.
Qed.

Lemma short_string_stays_below s :
  wf_string s -> (length s <= 4)%nat -> stays_below_2_26 s 0 = true.
Proof.
  unfold wf_string. intros Hs Hlen.
  destruct s as [|c1 [|c2 [|c3 [|c4 [|c5 s]]]]]; simpl in Hlen; try lia;
    repeat match goal with
           | H : Forall _ (_ :: _) |- _ => apply Forall_cons in H as [? H]
           end;
    cbn [stays_below_2_26];
    rewrite ?andb_true_iff, ?Z.leb_le, ?Z.ltb_lt; lia.
Qed.

(** ** The derived profile *)

Lemma abs_mod_bounds h m : 0 < m -> 0 <= Z.abs h mod m < m.
Proof. intros Hm. apply Z.mod_pos_bound, Hm. Qed.

(** C3. For every userId string, the empty one included, the derived
    profile has level in [1,5], currentXP in [500,1499], streakDays in
    [1,30] and totalXP = level * 1000. The derivation is a total function:
    it has a value at every string and clock reading. *)
Theorem C3_profile_ranges (now : Z) (uid : jsstring) :
  let p := getUserProgressFromDatabase now uid in
  1 <= level p <= 5 /\
  500 <= currentXP p <= 1499 /\
  1 <= streakDays p <= 30 /\
  totalXP p = level p * 1000.
Proof.
  cbn [getUserProgressFromDatabase level currentXP streakDays totalXP].
  pose proof (abs_mod_bounds (userHash uid) 5 ltac:(lia)).
  pose proof (abs_mod_bounds (userHash uid) 1000 ltac:(lia)).
  pose proof (abs_mod_bounds (userHash uid) 30 ltac:(lia)).
  repeat split; lia.
Qed.

(** C4, as the specification states it, fails on a seven-unit userId:
    [a << 5] wraps to 32 bits once the accumulator reaches 2^26. *)
Lemma C4_counterexample : userHash (lit "user123") <> polyHash (lit "user123").
Proof. vm_compute. discriminate. Qed.

(** C4 (amended). For every userId string the hash the profile is derived
    from is congruent modulo 2^32 to the polynomial hash
    acc = acc*31 + charCode from 0, and equals it whenever the accumulator
    stays below 2^26 in magnitude before every step; every string of at
    most four code units is such a string. *)
Theorem C4_hash_polynomial_mod_2_32 (s : jsstring) :
  userHash s mod 2^32 = polyHash s mod 2^32 /\
  (stays_below_2_26 s 0 = true -> userHash s = polyHash s) /\
  (wf_string s -> (length s <= 4)%nat -> userHash s = polyHash s).
Proof.
  unfold userHash, polyHash. split; [|split].
  - apply fold_hash_congr. reflexivity.
  - apply fold_hash_exact.
  - intros Hs Hlen. apply fold_hash_exact, short_string_stays_below; assumption.
Qed.

Lemma C4_witness :
  stays_below_2_26 (lit "nasa") 0 = true /\
  wf_string (lit "nasa") /\ (length (lit "nasa") <= 4)%nat /\
  userHash (lit "nasa") = polyHash (lit "nasa").
Proof.
  destruct (C4_hash_polynomial_mod_2_32 (lit "nasa")) as (_ & Hfit & Hshort).
  assert (Hwf : wf_string (lit "nasa"))
    by (unfold wf_string; simpl; repeat (constructor; [lia|]); constructor).
  assert (Hlen : (length (lit "nasa") <= 4)%nat) by (simpl; lia).
  split; [reflexivity|]. split; [exact Hwf|]. split; [exact Hlen|].
  exact (Hshort Hwf Hlen).
Defined.

(** The date stamped on an achievement is the clock's UTC date. *)
Lemma achievement_dates now uid :
  Forall (fun a => date a = today now) (getUserAchievements now uid).
Proof.
  unfold getUserAchievements, slice0.
  apply Forall_take. repeat constructor.
Qed.

Lemma achievements_nonempty now uid : getUserAchievements now uid <> [].
Proof.
  unfold getUserAchievements, slice0.
  pose proof (abs_mod_bounds (userHash uid) 3 ltac:(lia)) as Hm.
  destruct (Z.to_nat (Z.abs (userHash uid) mod 3 + 1)) eqn:E; [lia|].
  discriminate.
Qed.

Lemma achievements_same_day now1 now2 uid :
  today now1 = today now2 ->
  getUserAchievements now1 uid = getUserAchievements now2 uid.
Proof. intros Hday. unfold getUserAchievements. rewrite Hday. reflexivity. Qed.

Lemma achievements_text {B} (f : Achievement -> B) now1 now2 uid :
  (forall a b, a_id a = a_id b -> a_title a = a_title b ->
               a_description a = a_description b -> f a = f b) ->
  map f (getUserAchievements now1 uid) = map f (getUserAchievements now2 uid).
Proof.
  intros Hf. unfold getUserAchievements, slice0.
  rewrite <- !firstn_map. f_equal. cbn [map].
  repeat match goal with |- _ :: _ = _ :: _ => f_equal end;
    apply Hf; reflexivity.
Qed.

(** C2, as the specification states it, fails: the same userId derived at
    two clock readings a day apart gives two different profiles. *)
Lemma C2_counterexample :
  getUserProgressFromDatabase 0 (lit "guest")
  <> getUserProgressFromDatabase 86400000 (lit "guest").
Proof.
  intros Heq. apply (f_equal achievements) in Heq.
  vm_compute in Heq. discriminate.
Qed.

(** C2 (amended). For every two calls with the same userId string, level,
    currentXP, totalXP, nextLevel, streakDays, totalStudyTime,
    completedModules and the ids, titles and descriptions of the
    achievements are identical; the date of every achievement is the UTC
    date of the clock at the call, so the two profiles are identical
    exactly when the two calls read the same UTC date. *)
Theorem C2_profile_depends_on_userId_and_date (now1 now2 : Z) (uid : jsstring) :
  let p1 := getUserProgressFromDatabase now1 uid in
  let p2 := getUserProgressFromDatabase now2 uid in
  userId p1 = userId p2 /\ level p1 = level p2 /\
  currentXP p1 = currentXP p2 /\ totalXP p1 = totalXP p2 /\
  nextLevel p1 = nextLevel p2 /\ streakDays p1 = streakDays p2 /\
  totalStudyTime p1 = totalStudyTime p2 /\
  completedModules p1 = completedModules p2 /\
  map a_id (achievements p1) = map a_id (achievements p2) /\
  map a_title (achievements p1) = map a_title (achievements p2) /\
  map a_description (achievements p1) = map a_description (achievements p2) /\
  Forall (fun a => date a = today now1) (achievements p1) /\
  Forall (fun a => date a = today now2) (achievements p2) /\
  (p1 = p2 <-> today now1 = today now2).
Proof.
  cbn zeta.
  repeat (split; [first [reflexivity | apply achievement_dates
                        | apply achievements_text; congruence]|]).
  split.
  - intros Heq. apply (f_equal achievements) in Heq. cbn [achievements
      getUserProgressFromDatabase] in Heq.
    pose proof (achievement_dates now1 uid) as H1.
    pose proof (achievement_dates now2 uid) as H2.
    pose proof (achievements_nonempty now1 uid) as Hne.
    rewrite Heq in H1, Hne.
    destruct (getUserAchievements now2 uid) as [|a l]; [congruence|].
    apply Forall_cons in H1 as [H1 _]. apply Forall_cons in H2 as [H2 _].
    congruence.
  - intros Hday. unfold getUserProgressFromDatabase.
    rewrite (achievements_same_day now1 now2 uid Hday). reflexivity.
Qed.

Lemma C2_witness :
  today 0 = today 1000 /\
  getUserProgressFromDatabase 0 (lit "guest")
  = getUserProgressFromDatabase 1000 (lit "guest").
Proof.
  assert (Hday : today 0 = today 1000) by reflexivity.
  split; [exact Hday|].
  apply (C2_profile_depends_on_userId_and_date 0 1000 (lit "guest")), Hday.
Defined.

(** ** The cache *)

Section TTLCacheFacts.

Context {V : Type}.
Implicit Types (c : gmap jsstring (entry V)) (k : jsstring) (v : V).

Lemma getCachedData_Some c now k v :
  fst (getCachedData now k c) = Some v <->
  exists e, c !! k = Some e /\ data e = v /\ now - timestamp e < CACHE_DURATION.
Proof.
  unfold getCachedData. destruct (c !! k) as [e|] eqn:Hk.
  - destruct (Z.ltb_spec (now - timestamp e) CACHE_DURATION) as [Hlt|Hge]; simpl.
    + split.
      * intros [= <-]. exists e. auto.
      * intros (e' & [= <-] & <- & _). reflexivity.
    + split; [discriminate|]. intros (e' & [= <-] & _ & Hlt). lia.
  - simpl. split; [discriminate|]. intros (e' & [=] & _).
Qed.

Lemma getCachedData_None c now k :
  fst (getCachedData now k c) = None <->
  ~ exists e, c !! k = Some e /\ now - timestamp e < CACHE_DURATION.
Proof.
  split.
  - intros Hnone (e & He & Hlt).
    assert (fst (getCachedData now k c) = Some (data e)) as Hsome
      by (apply getCachedData_Some; eauto).
    congruence.
  - intros Hno. destruct (fst (getCachedData now k c)) as [v|] eqn:Hget; [|reflexivity].
    apply getCachedData_Some in Hget as (e & He & _ & Hlt).
    exfalso. apply Hno. eauto.
Qed.

Lemma getCachedData_keeps c now k : snd (getCachedData now k c) = c.
Proof.
  unfold getCachedData. destruct (c !! k) as [e|]; [|reflexivity].
  destruct (now - timestamp e <? CACHE_DURATION); reflexivity.
Qed.

Lemma get_after_set c now now' k v :
  now' - now < CACHE_DURATION ->
  fst (getCachedData now' k (snd (setCachedData now k v c))) = Some v.
Proof.
  intros Hlt. apply getCachedData_Some. exists (Entry v now).
  simpl. rewrite lookup_insert_eq. auto.
Qed.

Lemma get_after_expiry c now now' k v :
  CACHE_DURATION <= now' - now ->
  fst (getCachedData now' k (snd (setCachedData now k v c))) = None.
Proof.
  intros Hge. apply getCachedData_None. intros (e & He & Hlt).
  simpl in He. rewrite lookup_insert_eq in He. injection He as <-. simpl in Hlt. lia.
Qed.

Lemma get_after_delete c now k :
  fst (getCachedData now k (snd (cacheDelete k c))) = None.
Proof.
  apply getCachedData_None. intros (e & He & _).
  simpl in He. rewrite lookup_delete_eq in He. discriminate.
Qed.

(** The map after a history holds, under each key, what the history
    says was stored last. *)
Lemma run_ops_lookup (ops : list (cache_op V)) k :
  run_ops ops !! k = (fun p => Entry (fst p) (snd p)) <$> most_recent k ops.
Proof.
  unfold run_ops, most_recent.
  induction ops as [|o ops IH] using rev_ind; [apply lookup_empty|].
  rewrite fold_left_app, rev_app_distr. cbn [fold_left rev app latest_rev].
  destruct o as [t k' d|k']; cbn [run_op setCachedData cacheDelete snd].
  - destruct (decide (k' = k)) as [->|Hne].
    + apply lookup_insert_eq.
    + rewrite lookup_insert_ne by exact Hne. exact IH.
  - destruct (decide (k' = k)) as [->|Hne].
    + apply lookup_delete_eq.
    + rewrite lookup_delete_ne by exact Hne. exact IH.
Qed.

Lemma get_most_recent (ops : list (cache_op V)) now k v :
  fst (getCachedData now k (run_ops ops)) = Some v <->
  exists t, most_recent k ops = Some (v, t) /\ now - t < CACHE_DURATION.
Proof.
  rewrite getCachedData_Some, run_ops_lookup. split.
  - intros (e & He & <- & Hlt).
    destruct (most_recent k ops) as [[v' t]|]; [|discriminate].
    injection He as <-. exists t. auto.
  - intros (t & -> & Hlt). exists (Entry v t). auto.
Qed.

End TTLCacheFacts.

(** C5. For every key and value: the cache read returns the value most
    recently stored for the key if and only if an entry for the key
    exists and strictly less than 30 minutes have elapsed since it was
    stored; otherwise it returns null, and in either case it leaves the
    map as it was; a read at the clock reading of the write returns the
    value written. *)
Theorem C5_cache_read {V : Type} (c : gmap jsstring (entry V))
    (ops : list (cache_op V)) (now : Z) (k : jsstring) :
  CACHE_DURATION = 30 * 60 * 1000 /\
  (forall v, fst (getCachedData now k c) = Some v <->
             exists e, c !! k = Some e /\ data e = v /\
                       now - timestamp e < CACHE_DURATION) /\
  (fst (getCachedData now k c) = None <->
   ~ exists e, c !! k = Some e /\ now - timestamp e < CACHE_DURATION) /\
  snd (getCachedData now k c) = c /\
  (forall v, fst (getCachedData now k (run_ops ops)) = Some v <->
             exists t, most_recent k ops = Some (v, t) /\
                       now - t < CACHE_DURATION) /\
  (forall v, fst (getCachedData now k (snd (setCachedData now k v c))) = Some v).
Proof.
  split; [reflexivity|].
  split; [intros v; apply getCachedData_Some|].
  split; [apply getCachedData_None|].
  split; [apply getCachedData_keeps|].
  split; [intros v; apply get_most_recent|].
  intros v. apply get_after_set. unfold CACHE_DURATION. lia.
Qed.

Lemma C5_witness :
  let c : gmap jsstring (entry Z) := <[lit "k" := Entry 7 1000]> ∅ in
  (exists e, c !! lit "k" = Some e /\ data e = 7 /\
             1799999 - timestamp e < CACHE_DURATION) /\
  fst (getCachedData 1799999 (lit "k") c) = Some 7.
Proof.
  intros c.
  assert (Hentry : exists e, c !! lit "k" = Some e /\ data e = 7 /\
                             1799999 - timestamp e < CACHE_DURATION).
  { exists (Entry 7 1000). split; [apply lookup_insert_eq|].
    split; [reflexivity|]. unfold CACHE_DURATION. simpl. lia. }
  split; [exact Hentry|].
  destruct (C5_cache_read c [] 1799999 (lit "k")) as (_ & Hsome & _).
  apply Hsome, Hentry.
Defined.

(** ** Handlers: assessment scoring *)

Lemma round_half_even_comp y1 y2 :
  (y1 == y2)%Q -> round_half_even y1 = round_half_even y2.
Proof.
  intros Hy. unfold round_half_even. cbv zeta.
  rewrite (Qfloor_comp y1 y2 Hy).
  assert ((y1 - inject_Z (Qfloor y2) ?= 1 # 2) = (y2 - inject_Z (Qfloor y2) ?= 1 # 2))%Q
    as -> by (apply Qcompare_comp; [rewrite Hy|]; reflexivity).
  reflexivity.
Qed.

Lemma round_half_even_cases y :
  round_half_even y = Qfloor y \/
  (round_half_even y = Qfloor y + 1 /\ (1 # 2 <= y - inject_Z (Qfloor y))%Q).
Proof.
  unfold round_half_even. cbv zeta.
  destruct (Qcompare_spec (y - inject_Z (Qfloor y)) (1 # 2)) as [Heq|Hlt|Hgt].
  - destruct (Z.even (Qfloor y)); [left; reflexivity|right]. split; [reflexivity|].
    rewrite Heq. apply Qle_refl.
  - left. reflexivity.
  - right. split; [reflexivity|]. apply Qlt_le_weak, Hgt.
Qed.

Lemma round_half_even_ge y M : (inject_Z M <= y)%Q -> M <= round_half_even y.
Proof.
  intros Hy. assert (M <= Qfloor y) as Hf.
  { rewrite <- (Qfloor_Z M). apply Qfloor_resp_le, Hy. }
  destruct (round_half_even_cases y) as [-> | [-> _]]; lia.
Qed.

Lemma round_half_even_le y N : (y <= inject_Z N)%Q -> round_half_even y <= N.
Proof.
  intros Hy. assert (Qfloor y <= N) as Hf.
  { rewrite <- (Qfloor_Z N). apply Qfloor_resp_le, Hy. }
  destruct (round_half_even_cases y) as [-> | [-> Hhalf]]; [lia|].
  destruct (Z.eq_dec (Qfloor y) N) as [Heq|Hne]; [|lia].
  exfalso. rewrite Heq in Hhalf. lra.
Qed.

Lemma round_half_even_lt y N : (y < inject_Z N - (1 # 2))%Q -> round_half_even y <= N - 1.
Proof.
  intros Hy. assert (Qfloor y <= N) as Hf.
  { rewrite <- (Qfloor_Z N). apply Qfloor_resp_le. lra. }
  assert (Qfloor y <> N) as Hne.
  { intros Heq. pose proof (Qfloor_le y) as Hle. rewrite Heq in Hle. lra. }
  destruct (round_half_even_cases y) as [-> | [-> Hhalf]]; [lia|].
  destruct (Z.eq_dec (Qfloor y) (N - 1)) as [Heq|Hne']; [|lia].
  exfalso. rewrite Heq in Hhalf. unfold Z.sub in Hhalf.
  rewrite inject_Z_plus in Hhalf.
  change (inject_Z (- (1))) with (- (1))%Q in Hhalf. lra.
Qed.

Lemma ilog2_below_40 x : (0 < x)%Q -> (x < 40)%Q -> ilog2 x <= 5.
Proof.
  intros Hpos Hlt. unfold ilog2. cbv zeta. destruct x as [n d].
  cbn [Qnum Qden].
  assert (0 < n) as Hn by (unfold Qlt in Hpos; simpl in Hpos; lia).
  assert (n < 40 * Zpos d) as Hnd by (unfold Qlt in Hlt; simpl in Hlt; lia).
  assert (Z.log2 n <= Z.log2 (Zpos d) + 6) as Hlog.
  { replace (Z.log2 (Zpos d) + 6) with (Z.log2 (Zpos d * 2 ^ 6)).
    - apply Z.log2_le_mono. lia.
    - rewrite Z.log2_mul_pow2 by lia. lia. }
  destruct (Qle_bool (pow2 (Z.log2 n - Z.log2 (Z.pos d))) (n # d)) eqn:Htest; [|lia].
  destruct (Z.eq_dec (Z.log2 n - Z.log2 (Zpos d)) 6) as [Heq|Hne]; [|lia].
  exfalso. rewrite Heq in Htest. apply Qle_bool_iff in Htest.
  change (pow2 6) with (inject_Z 64) in Htest. change (inject_Z 64) with 64%Q in Htest. lra.
Qed.

Lemma pow2_negative e : e < 0 -> pow2 e = / inject_Z (2 ^ (- e)).
Proof. intros He. unfold pow2. destruct (Z.leb_spec 0 e); [lia|reflexivity]. Qed.

(** Below 40 the rounding works on a grid of step 1/P with P a power of
    two, at least 2^47. *)
Lemma round_double_scaled x :
  (0 < x)%Q -> (x < 40)%Q ->
  exists P, 2 ^ 47 <= P /\
    (round_double x == inject_Z (round_half_even (x * inject_Z P)) / inject_Z P)%Q.
Proof.
  intros Hpos Hlt. unfold round_double.
  rewrite (proj1 (Qgt_alt x 0) Hpos). unfold round_positive. cbv zeta.
  pose proof (ilog2_below_40 x Hpos Hlt) as He.
  set (E := Z.max (ilog2 x) (-1022) - 52). assert (E <= -47) as HE by (subst E; lia).
  rewrite pow2_negative by lia. exists (2 ^ (- E)). split.
  - apply Z.pow_le_mono_r; lia.
  - assert (0 < 2 ^ (- E)) as HP by (apply Z.pow_pos_nonneg; lia).
    set (P := 2 ^ (- E)) in *. clearbody P.
    assert (0 < inject_Z P)%Q as HPq by (change 0%Q with (inject_Z 0); rewrite <- Zlt_Qlt; exact HP).
    assert (x / / inject_Z P == x * inject_Z P)%Q as Hy.
    { unfold Qdiv. rewrite Qinv_involutive. reflexivity. }
    rewrite (round_half_even_comp _ _ Hy). reflexivity.
Qed.

Lemma round_double_nonneg x : (0 <= x)%Q -> (x < 40)%Q -> (0 <= round_double x)%Q.
Proof.
  intros Hlo Hhi. destruct (Qlt_le_dec 0 x) as [Hpos|Hzero].
  - destruct (round_double_scaled x Hpos Hhi) as (P & HP & ->).
    assert (0 < inject_Z P)%Q as HPq
      by (change 0%Q with (inject_Z 0); rewrite <- Zlt_Qlt; lia).
    assert (0 <= round_half_even (x * inject_Z P)) as Hr.
    { apply round_half_even_ge. change (inject_Z 0) with 0%Q.
      apply Qmult_le_0_compat; lra. }
    apply Qle_shift_div_l; [exact HPq|]. rewrite Qmult_0_l.
    change 0%Q with (inject_Z 0). rewrite <- Zle_Qle. exact Hr.
  - assert (x == 0)%Q as Hx by lra. unfold round_double.
    rewrite (proj1 (Qeq_alt x 0) Hx). apply Qle_refl.
Qed.

Lemma round_double_le_40 x : (0 <= x)%Q -> (x < 40)%Q -> (round_double x <= 40)%Q.
Proof.
  intros Hlo Hhi. destruct (Qlt_le_dec 0 x) as [Hpos|Hzero].
  - destruct (round_double_scaled x Hpos Hhi) as (P & HP & ->).
    assert (0 < inject_Z P)%Q as HPq
      by (change 0%Q with (inject_Z 0); rewrite <- Zlt_Qlt; lia).
    assert (round_half_even (x * inject_Z P) <= 40 * P) as Hr.
    { apply round_half_even_le. rewrite inject_Z_mult.
      change (inject_Z 40) with 40%Q. apply Qmult_le_compat_r; lra. }
    apply Qle_shift_div_r; [exact HPq|].
    change 40%Q with (inject_Z 40). rewrite <- inject_Z_mult, <- Zle_Qle. exact Hr.
  - assert (x == 0)%Q as Hx by lra. unfold round_double.
    rewrite (proj1 (Qeq_alt x 0) Hx). lra.
Qed.

Lemma round_double_lt_40 x :
  (0 <= x)%Q -> (x <= 40 - (40 # 2 ^ 53))%Q -> (round_double x < 40)%Q.
Proof.
  intros Hlo Hhi. destruct (Qlt_le_dec 0 x) as [Hpos|Hzero].
  - assert (x < 40)%Q as Hlt.
    { eapply Qle_lt_trans; [exact Hhi|]. reflexivity. }
    destruct (round_double_scaled x Hpos Hlt) as (P & HP & ->).
    assert (0 < inject_Z P)%Q as HPq
      by (change 0%Q with (inject_Z 0); rewrite <- Zlt_Qlt; lia).
    assert (inject_Z (2 ^ 47) <= inject_Z P)%Q as HPbig by (rewrite <- Zle_Qle; exact HP).
    assert (round_half_even (x * inject_Z P) <= 40 * P - 1) as Hr.
    { apply round_half_even_lt. rewrite inject_Z_mult. change (inject_Z 40) with 40%Q.
      assert (x * inject_Z P <= (40 - (40 # 2 ^ 53)) * inject_Z P)%Q as H1
        by (apply Qmult_le_compat_r; lra).
      assert ((40 # 2 ^ 53) * inject_Z (2 ^ 47) <= (40 # 2 ^ 53) * inject_Z P)%Q as H2.
      { rewrite !(Qmult_comm (40 # 2 ^ 53)). apply Qmult_le_compat_r; [exact HPbig|].
        discriminate. }
      assert ((40 # 2 ^ 53) * inject_Z (2 ^ 47) == 5 # 8)%Q as H3 by reflexivity.
      rewrite H3 in H2. lra. }
    apply Qlt_shift_div_r; [exact HPq|].
    apply Qle_lt_trans with (inject_Z (40 * P - 1)); [rewrite <- Zle_Qle; exact Hr|].
    change 40%Q with (inject_Z 40). rewrite <- inject_Z_mult, <- Zlt_Qlt. lia.
  - assert (x == 0)%Q as Hx by lra. unfold round_double.
    rewrite (proj1 (Qeq_alt x 0) Hx). reflexivity.
Qed.

(** The score for any draw below 1. *)
Lemma mockScore_range (random : Q) :
  (0 <= random)%Q -> (random < 1)%Q -> 60 <= mockScoreOf random <= 100.
Proof.
  intros Hlo Hhi. unfold mockScoreOf.
  assert (0 <= random * 40)%Q as Hx0 by lra.
  assert (random * 40 < 40)%Q as Hx1 by lra.
  pose proof (round_double_nonneg _ Hx0 Hx1) as Hr0.
  pose proof (round_double_le_40 _ Hx0 Hx1) as Hr1.
  apply Qfloor_resp_le in Hr0, Hr1.
  change (Qfloor 0) with 0 in Hr0. change (Qfloor 40) with 40 in Hr1. lia.
Qed.

(** The score for a draw that is a double below 1, hence at most
    1 - 2^-53: the product rounds to a double below 40. *)
Lemma mockScore_range_double (random : Q) :
  (0 <= random)%Q -> (random <= 1 - (1 # 2 ^ 53))%Q -> 60 <= mockScoreOf random <= 99.
Proof.
  intros Hlo Hhi. unfold mockScoreOf.
  assert (0 <= random * 40)%Q as Hx0 by lra.
  assert (random * 40 <= 40 - (40 # 2 ^ 53))%Q as Hx1.
  { assert ((40 # 2 ^ 53) == (1 # 2 ^ 53) * 40)%Q as -> by reflexivity. lra. }
  assert (random * 40 < 40)%Q as Hx2.
  { eapply Qle_lt_trans; [exact Hx1|]. reflexivity. }
  pose proof (round_double_nonneg _ Hx0 Hx2) as Hr0.
  pose proof (round_double_lt_40 _ Hx0 Hx1) as Hr1.
  apply Qfloor_resp_le in Hr0. change (Qfloor 0) with 0 in Hr0.
  assert (Qfloor (round_double (random * 40)) < 40); [|lia].
  rewrite Zlt_Qlt. eapply Qle_lt_trans; [apply Qfloor_le|exact Hr1].
Qed.

Lemma get_field_object body nm v :
  get_field body nm = Some v -> is_null body = false.
Proof. destruct body; simpl; congruence. Qed.

(** What [submit-assessment] answers when both members are truthy. *)
Lemma submit_assessment_response now random q body c :
  get_field body (lit "action") = Some (JStr (lit "submit-assessment")) ->
  truthy (get_field body (lit "assessmentId")) = true ->
  truthy (get_field body (lit "answers")) = true ->
  let score := mockScoreOf random in
  exists n,
    fst (POST now random q (Some body) c)
    = ok (AssessmentBody score (if 70 <? score then 200 else 100) (70 <=? score) n).
Proof.
  intros Hact Hid Hans. unfold POST. cbv zeta.
  rewrite (get_field_object _ _ _ Hact), Hact, Hid, Hans.
  cbn [template_ok stringifies negb orb].
  change (strict_eq _ (lit "start-module")) with false.
  change (strict_eq _ (lit "complete-module")) with false.
  change (strict_eq _ (lit "submit-assessment")) with true.
  cbv iota. unfold bind.
  destruct (awardXP _ _ c) as [b c1].
  destruct (fetchUserProgress _ _ c1) as [p c2].
  eexists. reflexivity.
Qed.

(** The parts of C1 that hold for every draw of [Math.random()]: the
    score is in [60,100] and [passed] is [score >= 70]; the XP is 200 for
    a score above 70 and 100 otherwise. *)
Lemma submit_assessment_score now random q body c :
  (0 <= random)%Q -> (random < 1)%Q ->
  get_field body (lit "action") = Some (JStr (lit "submit-assessment")) ->
  truthy (get_field body (lit "assessmentId")) = true ->
  truthy (get_field body (lit "answers")) = true ->
  exists score xp passed n,
    fst (POST now random q (Some body) c) = ok (AssessmentBody score xp passed n) /\
    60 <= score <= 100 /\
    passed = (70 <=? score) /\
    xp = (if 70 <? score then 200 else 100).
Proof.
  intros Hlo Hhi Hact Hid Hans.
  destruct (submit_assessment_response now random q body c Hact Hid Hans) as [n Hn].
  pose proof (mockScore_range random Hlo Hhi).
  eexists _, _, _, n. split; [exact Hn|]. repeat split; lia.
Qed.

(** C1, evaluated where it fails. [Math.random()] returns 0.25: the score
    is 70, [passed] is true, and the XP earned is 100, not the 200 the
    claim gives a passed assessment. *)
Theorem C1_score_70_passed_earns_100 :
  let request_body := JObj [
    (lit "action", JStr (lit "submit-assessment"));
    (lit "assessmentId", JStr (lit "nasa-fundamentals"));
    (lit "answers", JArr [JNum 1; JNum 0; JNum 2]) ] in
  fst (POST 0 (1 # 4) [] (Some request_body) ∅)
  = ok (AssessmentBody 70 100 true (Some 1452)).
Proof. vm_compute. reflexivity. Qed.

(** ** Handlers: dispatch *)

Lemma GET_unknown_action now q c :
  (forall a, searchParams_get (lit "action") q = Some a -> a ∉ GET_actions) ->
  GET now q c = (fail 400 (lit "Invalid action"), c).
Proof.
  intros Hnot. unfold GET. cbv zeta.
  assert (forall a, a ∈ GET_actions ->
            bool_decide (searchParams_get (lit "action") q = Some a) = false) as Hno.
  { intros a Ha. apply bool_decide_eq_false_2. intros Heq. exact (Hnot a Heq Ha). }
  rewrite !Hno by (unfold GET_actions; set_solver).
  reflexivity.
Qed.

Lemma strict_eq_false v nm :
  (forall a, v = Some (JStr a) -> a <> nm) -> strict_eq v nm = false.
Proof.
  intros Hne. destruct v as [[]|]; try reflexivity.
  simpl. apply bool_decide_eq_false_2. apply Hne. reflexivity.
Qed.

Lemma POST_unknown_action now random q body c :
  is_null body = false ->
  template_ok (get_field body (lit "action")) = true ->
  (forall a, get_field body (lit "action") = Some (JStr a) -> a ∉ POST_actions) ->
  POST now random q (Some body) c = (fail 400 (lit "Invalid POST action"), c).
Proof.
  intros Hnull Htpl Hnot. unfold POST. cbv zeta. rewrite Hnull, Htpl.
  assert (forall nm, nm ∈ POST_actions ->
            strict_eq (get_field body (lit "action")) nm = false) as Hno.
  { intros nm Hnm. apply strict_eq_false. intros a Ha ->. exact (Hnot _ Ha Hnm). }
  rewrite !Hno by (unfold POST_actions; set_solver).
  reflexivity.
Qed.

(** C7, as the specification states it, fails for POST: the body of the
    400 response to an unknown action reads 'Invalid POST action'. *)
Lemma C7_counterexample :
  fst (POST 0 0 [] (Some (JObj [(lit "action", JStr (lit "reset"))])) ∅)
  = fail 400 (lit "Invalid POST action")
  /\ fst (POST 0 0 [] (Some (JObj [(lit "action", JStr (lit "reset"))])) ∅)
     <> fail 400 (lit "Invalid action").
Proof. split; [reflexivity|]. vm_compute. discriminate. Qed.

(** C7 (amended). For every GET request whose action is absent or is not
    one of the supported GET actions the handler returns status 400 with
    the error 'Invalid action'. For every POST request whose body parses
    to a non-null value and whose action is not one of the supported POST
    actions (and, if it is not a string, can be written into the log
    line) the handler returns status 400 with the error
    'Invalid POST action'. Neither touches the cache. *)
Theorem C7_unknown_action (now : Z) (random : Q) (q : list (jsstring * jsstring))
    (body : json) (c : cache) :
  ((forall a, searchParams_get (lit "action") q = Some a -> a ∉ GET_actions) ->
   GET now q c = ({| status := 400; body := ErrorBody (lit "Invalid action") None |}, c))
  /\
  (is_null body = false ->
   template_ok (get_field body (lit "action")) = true ->
   (forall a, get_field body (lit "action") = Some (JStr a) -> a ∉ POST_actions) ->
   POST now random q (Some body) c
   = ({| status := 400; body := ErrorBody (lit "Invalid POST action") None |}, c)).
Proof.
  split.
  - apply GET_unknown_action.
  - apply POST_unknown_action.
Qed.

Lemma C7_witness :
  let q := [(lit "action", lit "reset")] in
  let body := JObj [(lit "action", JStr (lit "reset"))] in
  GET 0 q ∅ = (fail 400 (lit "Invalid action"), ∅) /\
  POST 0 0 q (Some body) ∅ = (fail 400 (lit "Invalid POST action"), ∅).
Proof.
  intros q body.
  destruct (C7_unknown_action 0 0 q body ∅) as [Hget Hpost].
  split.
  - apply Hget. intros a [= <-]. unfold GET_actions.
    rewrite !elem_of_cons, elem_of_nil. intros H.
    repeat (destruct H as [H|H]; [discriminate H|]). exact H.
  - apply Hpost; [reflexivity|reflexivity|].
    intros a [= <-]. unfold POST_actions.
    rewrite !elem_of_cons, elem_of_nil. intros H.
    repeat (destruct H as [H|H]; [discriminate H|]). exact H.
Defined.

(** C9. For every GET request with action 'modules' or 'progress', in
    every state of the cache (hit or miss), the response is a success
    whose [cache.cached] member is false. *)
Theorem C9_cached_always_false (now : Z) (q : list (jsstring * jsstring)) (c : cache) :
  searchParams_get (lit "action") q = Some (lit "modules") \/
  searchParams_get (lit "action") q = Some (lit "progress") ->
  status (fst (GET now q c)) = 200 /\
  response_cached (fst (GET now q c)) = Some false.
Proof.
  intros [Hact|Hact]; unfold GET; cbv zeta; rewrite Hact.
  - change (bool_decide (Some (lit "modules") = Some (lit "modules"))) with true.
    cbv iota. unfold bind, fetchLearningModules, bind, getCachedData.
    destruct (c !! _) as [e|]; [destruct (_ <? _)|]; split; reflexivity.
  - change (bool_decide (Some (lit "progress") = Some (lit "modules"))) with false.
    change (bool_decide (Some (lit "progress") = Some (lit "progress"))) with true.
    cbv iota. unfold bind, fetchUserProgress, bind, getCachedData.
    destruct (c !! _) as [e|]; [destruct (_ <? _)|]; split; reflexivity.
Qed.

Lemma C9_witness :
  let q := [(lit "action", lit "modules"); (lit "userId", lit "ada")] in
  let warm := snd (GET 0 q ∅) in
  is_Some (fst (getCachedData 1 (modules_key (Some (lit "all")) (Some (lit "ada"))) warm)) /\
  status (fst (GET 1 q warm)) = 200 /\
  response_cached (fst (GET 1 q warm)) = Some false.
Proof.
  intros q warm. split.
  - exists (DModules baseModules). vm_compute. reflexivity.
  - apply (C9_cached_always_false 1 q warm). left. reflexivity.
Defined.

(** ** Handlers: the default user *)

Lemma or_default_guest (x : option jsstring) :
  x = None \/ x = Some [] \/ x = Some (lit "guest") ->
  or_default x (lit "guest") = lit "guest".
Proof. intros [->|[->| ->]]; reflexivity. Qed.

(** C10. For every GET or POST request in which the userId query
    parameter is absent or empty, the handler returns the same response
    and leaves the cache in the same state as for the same request with
    userId 'guest'. *)
Theorem C10_absent_userId_is_guest (now : Z) (random : Q)
    (q q' : list (jsstring * jsstring)) (request_body : option json) (c : cache) :
  (forall nm, nm <> lit "userId" -> searchParams_get nm q = searchParams_get nm q') ->
  searchParams_get (lit "userId") q = None \/
  searchParams_get (lit "userId") q = Some [] ->
  searchParams_get (lit "userId") q' = Some (lit "guest") ->
  GET now q c = GET now q' c /\
  POST now random q request_body c = POST now random q' request_body c.
Proof.
  intros Hsame Hq Hq'.
  assert (or_default (searchParams_get (lit "userId") q) (lit "guest")
          = or_default (searchParams_get (lit "userId") q') (lit "guest")) as Huid.
  { rewrite Hq'. destruct Hq as [-> | ->]; reflexivity. }
  split.
  - unfold GET. cbv zeta. rewrite Huid.
    rewrite (Hsame (lit "action")), (Hsame (lit "moduleId")), (Hsame (lit "level"))
      by discriminate.
    reflexivity.
  - unfold POST. cbv zeta. rewrite Huid. reflexivity.
Qed.

Lemma C10_witness :
  let q := [(lit "action", lit "progress"); (lit "userId", [])] in
  let q' := [(lit "action", lit "progress"); (lit "userId", lit "guest")] in
  GET 0 q ∅ = GET 0 q' ∅ /\
  POST 0 0 q (Some (JObj [(lit "action", JStr (lit "start-module"));
                          (lit "moduleId", JStr (lit "ndvi-analysis"))])) ∅
  = POST 0 0 q' (Some (JObj [(lit "action", JStr (lit "start-module"));
                             (lit "moduleId", JStr (lit "ndvi-analysis"))])) ∅.
Proof.
  intros q q'. apply (C10_absent_userId_is_guest 0 0 q q').
  - intros nm Hnm. unfold q, q'. cbn [searchParams_get].
    destruct (decide (lit "action" = nm)); [reflexivity|].
    destruct (decide (lit "userId" = nm)); [congruence|reflexivity].
  - right. reflexivity.
  - reflexivity.
Defined.

(** ** Handlers: the module catalog *)

Lemma or_default_nonempty x d : d <> [] -> or_default x d <> [].
Proof. intros Hd. destruct x as [[|a s]|]; simpl; congruence. Qed.

Lemma generate_all uid : generateDynamicModules (Some (lit "all")) uid = baseModules.
Proof. reflexivity. Qed.

Lemma generate_difficulty d uid :
  generateDynamicModules (Some (difficulty_name d)) uid
  = filter (fun m => difficulty m = d) baseModules.
Proof. destruct d; vm_compute; reflexivity. Qed.

Lemma generate_unrecognised lvl uid :
  lvl <> [] -> lvl ∉ level_names -> generateDynamicModules (Some lvl) uid = [].
Proof.
  intros Hne Hnot. unfold generateDynamicModules.
  assert (forall nm, nm ∈ level_names -> Some nm <> Some lvl) as Hno.
  { intros nm Hnm [= ->]. exact (Hnot Hnm). }
  destruct lvl as [|a l]; [congruence|]. cbn [truthy_string andb].
  rewrite bool_decide_eq_false_2
    by (intros Heq; apply (Hno (lit "all")); [unfold level_names; set_solver|auto]).
  cbn [negb]. unfold baseModules.
  repeat (rewrite filter_cons_False;
          [|cbn [difficulty difficulty_name]; apply Hno; unfold level_names; set_solver]).
  reflexivity.
Qed.

(** The modules branch of [GET]: a fresh entry under the key is sent as
    it is, otherwise the catalog is generated, stored and sent. *)
Lemma GET_modules now q c :
  searchParams_get (lit "action") q = Some (lit "modules") ->
  let lvl := or_default (searchParams_get (lit "level") q) (lit "all") in
  let uid := or_default (searchParams_get (lit "userId") q) (lit "guest") in
  let key := modules_key (Some lvl) (Some uid) in
  let info := {| cached := false; ci_timestamp := toISOString now |} in
  GET now q c =
  match fst (getCachedData now key c) with
  | Some d => (ok (ModulesBody d (length_of d) categories_list info), c)
  | None =>
      let ms := generateDynamicModules (Some lvl) (Some uid) in
      (ok (ModulesBody (DModules ms) (Some (Z.of_nat (length ms))) categories_list info),
       <[key := Entry (DModules ms) now]> c)
  end.
Proof.
  intros Hact. unfold GET. cbv zeta. rewrite Hact.
  change (bool_decide (Some (lit "modules") = Some (lit "modules"))) with true.
  cbv iota. unfold bind, fetchLearningModules, bind, getCachedData.
  destruct (c !! _) as [e|]; [destruct (_ <? _)|]; reflexivity.
Qed.

(** C6, as the specification states it, fails on a level parameter that
    is present and empty: it is neither absent nor 'all' nor a difficulty,
    and the request is answered with the five modules, not the empty
    list. *)
Lemma C6_counterexample :
  let q := [(lit "action", lit "modules"); (lit "level", [])] in
  searchParams_get (lit "level") q = Some [] /\
(([] : jsstring) ∉ level_names) /\
  fst (GET 0 q ∅)
  = ok (ModulesBody (DModules baseModules) (Some 5) categories_list
          {| cached := false; ci_timestamp := toISOString 0 |}) /\
  baseModules <> [].
Proof.
  split; [reflexivity|]. split; [|split; [reflexivity|discriminate]].
  unfold level_names. rewrite !elem_of_cons, elem_of_nil. intros H.
  repeat (destruct H as [H|H]; [discriminate H|]). exact H.
Qed.

(** The cache keys are plain concatenations: the key of user 'x_y' at
    level 'all' is the key of user 'y' at level 'all_x'. After the second
    has been served (an empty list), the first is answered from that
    entry with no modules. *)
Lemma modules_key_collision :
  let warm := snd (GET 0 [(lit "action", lit "modules"); (lit "level", lit "all_x");
                          (lit "userId", lit "y")] ∅) in
  modules_key (Some (lit "all")) (Some (lit "x_y"))
  = modules_key (Some (lit "all_x")) (Some (lit "y")) /\
  fst (GET 1 [(lit "action", lit "modules"); (lit "level", lit "all");
              (lit "userId", lit "x_y")] warm)
  = ok (ModulesBody (DModules []) (Some 0) categories_list
          {| cached := false; ci_timestamp := toISOString 1 |}).
Proof. split; vm_compute; reflexivity. Qed.

(** The modules response by level, given that a fresh entry under the
    request's key holds the catalog generated for the request's level. *)
Lemma modules_by_level (now : Z) (q : list (jsstring * jsstring)) (c : cache) :
  searchParams_get (lit "action") q = Some (lit "modules") ->
  let level_param := searchParams_get (lit "level") q in
  let lvl := or_default level_param (lit "all") in
  let uid := or_default (searchParams_get (lit "userId") q) (lit "guest") in
  (forall d, fst (getCachedData now (modules_key (Some lvl) (Some uid)) c) = Some d ->
             d = DModules (generateDynamicModules (Some lvl) (Some uid))) ->
  exists ms,
    fst (GET now q c)
    = {| status := 200;
         body := ModulesBody (DModules ms) (Some (Z.of_nat (length ms))) categories_list
                   {| cached := false; ci_timestamp := toISOString now |} |} /\
    (level_param = None \/ level_param = Some [] \/ level_param = Some (lit "all") ->
     ms = baseModules /\ Z.of_nat (length ms) = 5) /\
    (forall d, level_param = Some (difficulty_name d) ->
               ms = filter (fun m => difficulty m = d) baseModules) /\
    (forall l, level_param = Some l -> l <> [] -> l ∉ level_names -> ms = []).
Proof.
  intros Hact level_param lvl uid Hentry.
  exists (generateDynamicModules (Some lvl) (Some uid)). split.
  - rewrite (GET_modules now q c Hact). cbv zeta. fold level_param lvl uid.
    destruct (fst (getCachedData now (modules_key (Some lvl) (Some uid)) c))
      as [d|] eqn:Hget; [|reflexivity].
    rewrite (Hentry d eq_refl). reflexivity.
  - subst lvl. split; [|split].
    + intros [-> | [-> | ->]]; split; reflexivity.
    + intros d ->.
      destruct d; [exact (generate_difficulty beginner (Some uid))
                  |exact (generate_difficulty intermediate (Some uid))
                  |exact (generate_difficulty advanced (Some uid))].
    + intros l -> Hne Hnot. destruct l as [|a l]; [congruence|].
      apply generate_unrecognised; assumption.
Qed.

(** ** Handlers: starting a module *)

(** Two strings cut at their first separator agree on both sides of it. *)
Lemma split_first_sep (sep : Z) (x x' y y' : jsstring) :
  sep ∉ x -> sep ∉ x' -> x ++ sep :: y = x' ++ sep :: y' -> x = x' /\ y = y'.
Proof.
  revert x'. induction x as [|a x IH]; intros [|a' x'] Hx Hx' Heq; simpl in Heq.
  - injection Heq as ->. auto.
  - injection Heq as <- _. exfalso. apply Hx'. left.
  - injection Heq as -> _. exfalso. apply Hx. left.
  - injection Heq as -> Heq.
    assert (x = x' /\ y = y') as [Hxx Hyy].
    { apply IH; [| |exact Heq]; intros Hin; [apply Hx|apply Hx']; right; exact Hin. }
    subst. auto.
Qed.

Lemma progress_key_inj u u' : progress_key u = progress_key u' -> u = u'.
Proof. unfold progress_key. apply app_inv_head. Qed.

Lemma progress_key_not_modules_all u u' : progress_key u' <> modules_all_key u.
Proof. unfold progress_key, modules_all_key. simpl. discriminate. Qed.

Lemma assessments_key_not_progress x u : assessments_key x <> progress_key u.
Proof. unfold progress_key, assessments_key. simpl. discriminate. Qed.

Lemma assessments_key_not_modules_all x u : assessments_key x <> modules_all_key u.
Proof. unfold modules_all_key, assessments_key. simpl. discriminate. Qed.

Lemma modules_key_not_progress x y u : modules_key x y <> progress_key u.
Proof. unfold progress_key, modules_key. simpl. discriminate. Qed.

(** A modules key of another user is the deleted key only through a
    level that contains an underscore. *)
Lemma modules_key_not_modules_all lvl u u' :
  95 ∉ lvl -> u' <> [] -> u' <> u ->
  modules_key (Some lvl) (Some u') <> modules_all_key u.
Proof.
  intros Hsep Hne Hother Heq. unfold modules_key, modules_all_key in Heq.
  destruct u' as [|a u']; [congruence|]. cbn [or_default] in Heq.
  change (lit "modules_all_" ++ u)
    with (lit "modules_" ++ lit "all" ++ 95 :: u) in Heq.
  apply app_inv_head in Heq. change (lit "_" ++ a :: u') with (95 :: a :: u') in Heq.
  apply split_first_sep in Heq as [_ Hu]; [congruence| |].
  - destruct lvl as [|b l]; [|exact Hsep]. simpl.
    rewrite !elem_of_cons, elem_of_nil. intros H.
    repeat (destruct H as [H|H]; [discriminate H|]). exact H.
  - simpl. rewrite !elem_of_cons, elem_of_nil. intros H.
    repeat (destruct H as [H|H]; [discriminate H|]). exact H.
Qed.

(** The start-module branch of [POST] for a string moduleId. *)
Lemma POST_start_module now random q body m c :
  get_field body (lit "action") = Some (JStr (lit "start-module")) ->
  get_field body (lit "moduleId") = Some (JStr m) -> m <> [] ->
  let uid := or_default (searchParams_get (lit "userId") q) (lit "guest") in
  POST now random q (Some body) c
  = (ok (ModuleStartedBody (lit "Module started successfully") 50),
     delete (progress_key uid)
       (delete (modules_all_key uid) (delete (progress_key uid) c))).
Proof.
  intros Hact Hmod Hm uid. unfold POST. cbv zeta.
  rewrite (get_field_object _ _ _ Hact), Hact, Hmod.
  cbn [template_ok stringifies negb truthy].
  change (strict_eq _ (lit "start-module")) with true. cbv iota.
  rewrite bool_decide_eq_false_2 by exact Hm. cbn [negb].
  reflexivity.
Qed.

Lemma fetchUserProgress_miss (now : Z) (uid : jsstring) (c : cache) :
  c !! progress_key uid = None ->
  fetchUserProgress now uid c
  = (DProgress (getUserProgressFromDatabase now uid),
     <[progress_key uid := Entry (DProgress (getUserProgressFromDatabase now uid)) now]> c).
Proof.
  intros Hmiss. unfold fetchUserProgress, bind, getCachedData. rewrite Hmiss.
  reflexivity.
Qed.

(** C8, as the specification states it, fails: user 'y' has a cache
    entry under the key of its modules request at level 'all_x', and the
    start-module request of user 'x_y' removes it. *)
Lemma C8_counterexample :
  let warm := snd (GET 0 [(lit "action", lit "modules"); (lit "level", lit "all_x");
                          (lit "userId", lit "y")] ∅) in
  let after := snd (POST 1 0 [(lit "userId", lit "x_y")]
                      (Some (JObj [(lit "action", JStr (lit "start-module"));
                                   (lit "moduleId", JStr (lit "nasa-data-intro"))]))
                      warm) in
  let k := modules_key (Some (lit "all_x")) (Some (lit "y")) in
  lit "y" <> lit "x_y" /\ key_of_user (lit "y") k /\
  is_Some (warm !! k) /\ after !! k = None.
Proof.
  cbv zeta. split; [discriminate|]. split; [constructor|].
  split; [eexists|]; vm_compute; reflexivity.
Qed.

(** C8 (amended). For every userId and non-empty moduleId, POST with
    action 'start-module' returns success with xpAwarded 50 and removes
    the entries under the keys user_progress_<userId> and
    modules_all_<userId>, so that the next progress read recomputes the
    profile and stores it; every entry under any other key is unchanged.
    The unchanged entries include, for every other user, the progress
    entry, the assessments entry and the modules entry of every level
    that has no underscore in it. *)
Theorem C8_start_module (now : Z) (random : Q) (q : list (jsstring * jsstring))
    (body : json) (m : jsstring) (c : cache) :
  get_field body (lit "action") = Some (JStr (lit "start-module")) ->
  get_field body (lit "moduleId") = Some (JStr m) -> m <> [] ->
  let uid := or_default (searchParams_get (lit "userId") q) (lit "guest") in
  let resp := fst (POST now random q (Some body) c) in
  let after := snd (POST now random q (Some body) c) in
  resp = {| status := 200;
            body := ModuleStartedBody (lit "Module started successfully") 50 |} /\
  after !! progress_key uid = None /\
  after !! modules_all_key uid = None /\
  (forall now',
     fst (fetchUserProgress now' uid after)
       = DProgress (getUserProgressFromDatabase now' uid) /\
     snd (fetchUserProgress now' uid after) !! progress_key uid
       = Some (Entry (DProgress (getUserProgressFromDatabase now' uid)) now')) /\
  (forall k, k <> progress_key uid -> k <> modules_all_key uid ->
             after !! k = c !! k) /\
  (forall u', u' <> [] -> u' <> uid ->
     after !! progress_key u' = c !! progress_key u' /\
     after !! assessments_key (Some u') = c !! assessments_key (Some u') /\
     (forall lvl, 95 ∉ lvl ->
        after !! modules_key (Some lvl) (Some u')
        = c !! modules_key (Some lvl) (Some u'))).
Proof.
  intros Hact Hmod Hm uid resp after. subst resp after.
  rewrite (POST_start_module now random q body m c Hact Hmod Hm).
  fold uid. cbn [fst snd].
  assert (forall k, k <> progress_key uid -> k <> modules_all_key uid ->
            delete (progress_key uid)
              (delete (modules_all_key uid) (delete (progress_key uid) c)) !! k
            = c !! k) as Hframe.
  { intros k Hk1 Hk2. rewrite !lookup_delete_ne by congruence. reflexivity. }
  assert (delete (progress_key uid)
            (delete (modules_all_key uid) (delete (progress_key uid) c))
            !! progress_key uid = None) as Hgone by apply lookup_delete_eq.
  split; [reflexivity|]. split; [exact Hgone|]. split.
  { rewrite lookup_delete_ne by apply progress_key_not_modules_all.
    apply lookup_delete_eq. }
  split.
  { intros now'. rewrite (fetchUserProgress_miss _ _ _ Hgone). cbn [fst snd].
    split; [reflexivity|apply lookup_insert_eq]. }
  split; [exact Hframe|].
  intros u' Hne Hother. split; [|split].
  - apply Hframe.
    + intros Heq. apply progress_key_inj in Heq. congruence.
    + apply progress_key_not_modules_all.
  - apply Hframe.
    + apply assessments_key_not_progress.
    + apply assessments_key_not_modules_all.
  - intros lvl Hsep. apply Hframe.
    + apply modules_key_not_progress.
    + apply modules_key_not_modules_all; assumption.
Qed.

Lemma C8_witness :
  let warm := snd (GET 0 [(lit "action", lit "progress"); (lit "userId", lit "ada")] ∅) in
  let body := JObj [(lit "action", JStr (lit "start-module"));
                    (lit "moduleId", JStr (lit "nasa-data-intro"))] in
  is_Some (warm !! progress_key (lit "ada")) /\
  fst (POST 1 0 [(lit "userId", lit "ada")] (Some body) warm)
  = ok (ModuleStartedBody (lit "Module started successfully") 50) /\
  snd (POST 1 0 [(lit "userId", lit "ada")] (Some body) warm)
    !! progress_key (lit "ada") = None.
Proof.
  intros warm body.
  destruct (C8_start_module 1 0 [(lit "userId", lit "ada")] body
              (lit "nasa-data-intro") warm) as (Hresp & Hgone & _);
    [reflexivity|reflexivity|discriminate|].
  split; [eexists; vm_compute; reflexivity|].
  split; [exact Hresp|exact Hgone].
Defined.

(** ** Reachable states *)

Lemma cache_sound_insert (c : cache) k e :
  cache_sound c -> entry_sound k e -> cache_sound (<[k := e]> c).
Proof.
  intros Hc He k' e' Hk'. destruct (decide (k = k')) as [<-|Hne].
  - rewrite lookup_insert_eq in Hk'. injection Hk' as <-. exact He.
  - rewrite lookup_insert_ne in Hk' by exact Hne. eapply Hc, Hk'.
Qed.

Lemma cache_sound_delete (c : cache) k : cache_sound c -> cache_sound (delete k c).
Proof.
  intros Hc k' e' Hk'. destruct (decide (k = k')) as [<-|Hne].
  - rewrite lookup_delete_eq in Hk'. discriminate.
  - rewrite lookup_delete_ne in Hk' by exact Hne. eapply Hc, Hk'.
Qed.

Lemma keeps_ret {A} (a : A) : keeps_sound (ret a).
Proof. intros c Hc. exact Hc. Qed.

Lemma keeps_bind {A B} (m : Hub A) (k : A -> Hub B) :
  keeps_sound m -> (forall a, keeps_sound (k a)) -> keeps_sound (bind m k).
Proof.
  intros Hm Hk c Hc. unfold bind. specialize (Hm c Hc).
  destruct (m c) as [a c1]. apply Hk, Hm.
Qed.

Lemma keeps_cacheDelete k : keeps_sound (cacheDelete k).
Proof. intros c Hc. apply cache_sound_delete, Hc. Qed.

Lemma keeps_fetchLearningModules now lvl uid :
  keeps_sound (fetchLearningModules now lvl uid).
Proof.
  intros c Hc. unfold fetchLearningModules, bind, getCachedData.
  destruct (c !! _) as [e|]; [destruct (_ <? _)|]; cbn [snd ret setCachedData];
    try exact Hc; apply cache_sound_insert; try exact Hc; left; eauto.
Qed.

Lemma keeps_fetchUserProgress now uid : keeps_sound (fetchUserProgress now uid).
Proof.
  intros c Hc. unfold fetchUserProgress, bind, getCachedData.
  destruct (c !! _) as [e|]; [destruct (_ <? _)|]; cbn [snd ret setCachedData];
    try exact Hc; apply cache_sound_insert; try exact Hc; right; left; eauto.
Qed.

Lemma keeps_fetchAssessments now uid : keeps_sound (fetchAssessments now uid).
Proof.
  intros c Hc. unfold fetchAssessments, bind, getCachedData.
  destruct (c !! _) as [e|]; [destruct (_ <? _)|]; cbn [snd ret setCachedData];
    try exact Hc; apply cache_sound_insert; try exact Hc; right; right; eauto.
Qed.

Ltac keeps_step :=
  first
    [ apply keeps_ret
    | apply keeps_cacheDelete
    | apply keeps_fetchLearningModules
    | apply keeps_fetchUserProgress
    | apply keeps_fetchAssessments
    | apply keeps_bind; [|intros ?]
    | match goal with
      | |- keeps_sound (match ?x with _ => _ end) => destruct x
      end ].

Lemma keeps_updateModuleProgress uid moduleId completed :
  keeps_sound (updateModuleProgress uid moduleId completed).
Proof. unfold updateModuleProgress. repeat keeps_step. Qed.

Lemma keeps_awardXP uid xpAmount : keeps_sound (awardXP uid xpAmount).
Proof. unfold awardXP. repeat keeps_step. Qed.

Lemma keeps_generateModuleContent now moduleId uid :
  keeps_sound (generateModuleContent now moduleId uid).
Proof. unfold generateModuleContent. repeat keeps_step. Qed.

Lemma keeps_GET now q : keeps_sound (GET now q).
Proof.
  unfold GET. cbv zeta.
  repeat first [apply keeps_generateModuleContent | keeps_step].
Qed.

Lemma keeps_POST now random q b : keeps_sound (POST now random q b).
Proof.
  unfold POST. cbv zeta.
  repeat first [apply keeps_updateModuleProgress | apply keeps_awardXP | keeps_step].
Qed.

(** Every entry of a reachable cache was stored by a fetcher under that
    fetcher's key. *)
Lemma reachable_sound c : reachable c -> cache_sound c.
Proof.
  induction 1 as [|c now r _ IH].
  - intros k e Hk. rewrite lookup_empty in Hk. discriminate.
  - destruct r; [apply keeps_GET|apply keeps_POST]; exact IH.
Qed.

(** ** Reachable states and the module catalog *)

Lemma generate_or_default lvl uid uid' :
  generateDynamicModules lvl uid
  = generateDynamicModules (Some (or_default lvl (lit "all"))) uid'.
Proof. destruct lvl as [[|a l]|]; reflexivity. Qed.

(** A modules key whose level and user have no underscore is built from
    that level only. *)
Lemma modules_key_level (lvl uid : jsstring) (lvl' uid' : option jsstring) :
  lvl <> [] -> uid <> [] -> 95 ∉ lvl -> 95 ∉ uid ->
  modules_key lvl' uid' = modules_key (Some lvl) (Some uid) ->
  or_default lvl' (lit "all") = lvl.
Proof.
  intros Hl Hu Hsl Hsu Heq. unfold modules_key in Heq.
  apply app_inv_head in Heq.
  destruct lvl as [|a l]; [congruence|]. destruct uid as [|b u]; [congruence|].
  cbn [or_default] in Heq.
  set (l1 := or_default lvl' (lit "all")) in *.
  set (u1 := or_default uid' (lit "guest")) in *.
  change (l1 ++ 95 :: u1 = (a :: l) ++ 95 :: b :: u) in Heq.
  destruct (decide (95 ∈ l1)) as [Hin|Hnot].
  - apply list_elem_of_split_l in Hin as (x & y & Hl1 & Hx).
    rewrite Hl1, <- app_assoc in Heq.
    apply (split_first_sep 95 x (a :: l) (y ++ 95 :: u1) (b :: u)) in Heq
      as [_ Hrest]; [|exact Hx|exact Hsl].
    exfalso. apply Hsu. rewrite <- Hrest. set_solver.
  - apply (split_first_sep 95 l1 (a :: l) u1 (b :: u)) in Heq as [Hsame _];
      [exact Hsame|exact Hnot|exact Hsl].
Qed.

(** In every reachable state, whatever is read under the modules key of
    an underscore-free level and user is the catalog for that level. *)
Lemma reachable_modules_entry c now (lvl uid : jsstring) d :
  reachable c -> lvl <> [] -> uid <> [] -> 95 ∉ lvl -> 95 ∉ uid ->
  fst (getCachedData now (modules_key (Some lvl) (Some uid)) c) = Some d ->
  d = DModules (generateDynamicModules (Some lvl) (Some uid)).
Proof.
  intros Hreach Hl Hu Hsl Hsu Hget.
  apply getCachedData_Some in Hget as (e & He & <- & _).
  destruct (reachable_sound c Hreach _ _ He)
    as [(lvl' & uid' & Hk & ->) | [(u & Hk & _) | (u & Hk & _)]].
  - symmetry in Hk. apply modules_key_level in Hk; [|assumption..].
    rewrite (generate_or_default lvl' uid' (Some uid)), Hk. reflexivity.
  - exfalso. exact (modules_key_not_progress _ _ _ Hk).
  - exfalso. unfold modules_key, assessments_key in Hk. simpl in Hk. discriminate.
Qed.

(** C6 (amended). For every modules request whose level and userId
    contain no underscore, in every cache state the process can reach:
    with level absent, empty or equal to 'all' the result is exactly the
    5 seeded modules and totalModules is 5; with level beginner,
    intermediate or advanced the result is exactly the seeded modules of
    that difficulty; with any other non-empty level the result is the
    empty list, with no error. *)
Theorem C6_modules_by_level (now : Z) (q : list (jsstring * jsstring)) (c : cache) :
  reachable c ->
  searchParams_get (lit "action") q = Some (lit "modules") ->
  let level_param := searchParams_get (lit "level") q in
  let lvl := or_default level_param (lit "all") in
  let uid := or_default (searchParams_get (lit "userId") q) (lit "guest") in
  95 ∉ lvl -> 95 ∉ uid ->
  exists ms,
    fst (GET now q c)
    = {| status := 200;
         body := ModulesBody (DModules ms) (Some (Z.of_nat (length ms))) categories_list
                   {| cached := false; ci_timestamp := toISOString now |} |} /\
    (level_param = None \/ level_param = Some [] \/ level_param = Some (lit "all") ->
     ms = baseModules /\ Z.of_nat (length ms) = 5) /\
    (forall d, level_param = Some (difficulty_name d) ->
               ms = filter (fun m => difficulty m = d) baseModules) /\
    (forall l, level_param = Some l -> l <> [] -> l ∉ level_names -> ms = []).
Proof.
  intros Hreach Hact level_param lvl uid Hsl Hsu.
  apply (modules_by_level now q c Hact).
  intros d. apply reachable_modules_entry; try assumption.
  - apply or_default_nonempty. discriminate.
  - apply or_default_nonempty. discriminate.
Qed.

Lemma C6_witness :
  let q := [(lit "action", lit "modules"); (lit "level", lit "beginner");
            (lit "userId", lit "ada")] in
  let others := snd (handle 0 (ReqGET [(lit "action", lit "modules");
                                       (lit "level", lit "all_x");
                                       (lit "userId", lit "y")]) ∅) in
  let warm := snd (handle 1 (ReqGET q) others) in
  reachable warm /\
  is_Some (fst (getCachedData 2 (modules_key (Some (lit "beginner")) (Some (lit "ada")))
                  warm)) /\
  exists ms,
    fst (GET 2 q warm)
    = ok (ModulesBody (DModules ms) (Some (Z.of_nat (length ms))) categories_list
            {| cached := false; ci_timestamp := toISOString 2 |}) /\
    ms = filter (fun m => difficulty m = beginner) baseModules /\
    length ms = 1%nat.
Proof.
  intros q others warm.
  assert (Hreach : reachable warm) by (do 2 apply reachable_step; apply reachable_start).
  split; [exact Hreach|]. split; [eexists; vm_compute; reflexivity|].
  destruct (C6_modules_by_level 2 q warm Hreach eq_refl) as (ms & Hresp & _ & Hdiff & _).
  - change (95 ∉ [98; 101; 103; 105; 110; 110; 101; 114]).
    rewrite !elem_of_cons, elem_of_nil. intros H.
    repeat (destruct H as [H|H]; [discriminate H|]). exact H.
  - change (95 ∉ [97; 100; 97]).
    rewrite !elem_of_cons, elem_of_nil. intros H.
    repeat (destruct H as [H|H]; [discriminate H|]). exact H.
  - exists ms. split; [exact Hresp|].
    assert (Hms : ms = filter (fun m => difficulty m = beginner) baseModules)
      by (apply (Hdiff beginner); reflexivity).
    split; [exact Hms|]. rewrite Hms. reflexivity.
Defined.

(** The profile of C2 through the route: the same progress request, in
    one process, a day and more apart, is answered with two different
    profiles. *)
Lemma progress_changes_overnight :
  let q := [(lit "action", lit "progress"); (lit "userId", lit "ada")] in
  let first := GET 0 q ∅ in
  let second := GET 86400000 q (snd first) in
  body (fst first) <> body (fst second).
Proof.
  cbv zeta. intros Heq.
  apply (f_equal (fun b => match b with
                           | ProgressBody (DProgress p) _ => map date (achievements p)
                           | _ => []
                           end)) in Heq.
  vm_compute in Heq. discriminate.
Qed.

(** The hash is not the 32-bit truncation of the polynomial hash either:
    the accumulator is not truncated after the subtraction. *)
Lemma userHash_leaves_int32 :
  userHash (lit "farmer1") = 3216719150 /\
  2^31 <= userHash (lit "farmer1") /\
  userHash (lit "farmer1") mod 2^32 = polyHash (lit "farmer1") mod 2^32.
Proof. vm_compute. repeat split; discriminate. Qed.


(** * Further properties of the route *)

(** ** Level titles and the shape of the derived profile *)

(** X1. [getLevelName] clamps on both sides: levels 1 to 5 read their
    title from the table, every level from 5 up is 'Master Navigator',
    and so is every level below 1 (the index is negative, the read is
    undefined and the fallback applies), not the first title. *)
Theorem X1_getLevelName_clamps (lvl : Z) :
  (1 <= lvl <= 5 -> level_titles !! Z.to_nat (lvl - 1) = Some (getLevelName lvl)) /\
  (5 <= lvl -> getLevelName lvl = lit "Master Navigator") /\
  (lvl <= 0 -> getLevelName lvl = lit "Master Navigator").
Proof.
  split; [|split].
  - intros Hl.
    assert (lvl = 1 \/ lvl = 2 \/ lvl = 3 \/ lvl = 4 \/ lvl = 5) as Hc by lia.
    destruct Hc as [-> | [-> | [-> | [-> | ->]]]]; reflexivity.
  - intros Hl. unfold getLevelName. cbn [length]. cbv zeta.
    rewrite Z.min_r by lia. reflexivity.
  - intros Hl. unfold getLevelName. cbn [length]. cbv zeta.
    rewrite Z.min_l by lia.
    destruct (Z.ltb_spec (lvl - 1) 0) as [_|Hge]; [reflexivity|lia].
Qed.

Lemma X1_witness :
  level_titles !! Z.to_nat (2 - 1) = Some (getLevelName 2) /\
  getLevelName 9 = lit "Master Navigator" /\
  getLevelName (-3) = lit "Master Navigator".
Proof.
  split; [|split].
  - destruct (X1_getLevelName_clamps 2) as (H & _ & _). apply H. lia.
  - destruct (X1_getLevelName_clamps 9) as (_ & H & _). apply H. lia.
  - destruct (X1_getLevelName_clamps (-3)) as (_ & _ & H). apply H. lia.
Defined.

Lemma take_Z_length {A} (n : Z) (l : list A) :
  0 <= n <= Z.of_nat (length l) -> Z.of_nat (length (slice0 n l)) = n.
Proof.
  intros Hn. unfold slice0. rewrite length_take_le by lia. lia.
Qed.

(** X2. The fields of a derived profile are tied to one another, all
    being residues of one hash: level is currentXP mod 5 + 1,
    totalStudyTime is (currentXP - 500) mod 500 + 100, the number of
    achievements is (streakDays - 1) mod 3 + 1 and is one more than the
    number of completed modules; totalStudyTime is in [100,599]. *)
Theorem X2_profile_fields_tied (now : Z) (uid : jsstring) :
  let p := getUserProgressFromDatabase now uid in
  level p = currentXP p mod 5 + 1 /\
  (streakDays p - 1) mod 5 = level p - 1 /\
  totalStudyTime p = (currentXP p - 500) mod 500 + 100 /\
  100 <= totalStudyTime p <= 599 /\
  Z.of_nat (length (achievements p)) = (streakDays p - 1) mod 3 + 1 /\
  Z.of_nat (length (completedModules p)) = (streakDays p - 1) mod 3 /\
  length (achievements p) = S (length (completedModules p)).
Proof.
  cbn [getUserProgressFromDatabase level currentXP streakDays totalStudyTime
       achievements completedModules].
  unfold getUserAchievements, getUserCompletedModules. cbv zeta.
  set (h := Z.abs (userHash uid)).
  assert (0 <= h) as Hh by (subst h; lia).
  assert (0 <= h mod 3 < 3) as H3 by (apply Z.mod_pos_bound; lia).
  rewrite !take_Z_length by (cbn [length]; lia).
  clearbody h.
  repeat split; try (Z.div_mod_to_equations; lia).
  apply Nat2Z.inj. rewrite Nat2Z.inj_succ, !take_Z_length by (cbn [length]; lia). lia.
Qed.

(** X3. The completed modules of a derived profile are a prefix of the
    three possible ids, its achievements a prefix of the achievement
    catalog, and its next level is the title after its own (never the
    first title, and the last one from level 4 on). *)
Theorem X3_profile_lists (now : Z) (uid : jsstring) :
  let p := getUserProgressFromDatabase now uid in
  completedModules p `prefix_of` possible_module_ids /\
  map a_id (achievements p) `prefix_of` achievement_ids /\
  level_titles !! Z.to_nat (Z.min (level p) 4) = Some (nextLevel p) /\
  nextLevel p <> lit "Novice Farmer" /\
  (nextLevel p = lit "Master Navigator" <-> 4 <= level p).
Proof.
  cbn [getUserProgressFromDatabase level nextLevel achievements completedModules].
  split; [apply prefix_take|]. split.
  { unfold getUserAchievements, slice0. rewrite <- firstn_map. apply prefix_take. }
  pose proof (abs_mod_bounds (userHash uid) 5 ltac:(lia)) as Hm.
  set (r := Z.abs (userHash uid) mod 5) in *. clearbody r.
  assert (r = 0 \/ r = 1 \/ r = 2 \/ r = 3 \/ r = 4) as Hc by lia.
  destruct Hc as [-> | [-> | [-> | [-> | ->]]]];
    (split; [reflexivity|]; split; [vm_compute; discriminate|]);
    split; intros H; first [lia | reflexivity | vm_compute in H; discriminate H].
Qed.

Lemma X3_witness :
  4 <= level (getUserProgressFromDatabase 0 (lit "user123")) /\
  nextLevel (getUserProgressFromDatabase 0 (lit "user123")) = lit "Master Navigator".
Proof.
  assert (Hl : 4 <= level (getUserProgressFromDatabase 0 (lit "user123")))
    by (apply Z.leb_le; vm_compute; reflexivity).
  split; [exact Hl|].
  destruct (X3_profile_lists 0 (lit "user123")) as (_ & _ & _ & _ & Hm).
  apply Hm, Hl.
Defined.

(** ** Module content *)

Lemma completed_cases uid :
  getUserCompletedModules uid = [] \/
  getUserCompletedModules uid = [lit "nasa-data-intro"] \/
  getUserCompletedModules uid = [lit "nasa-data-intro"; lit "satellite-imagery"].
Proof.
  unfold getUserCompletedModules. cbv zeta.
  pose proof (abs_mod_bounds (userHash uid) 3 ltac:(lia)) as Hm.
  set (r := Z.abs (userHash uid) mod 3) in *. clearbody r.
  assert (r = 0 \/ r = 1 \/ r = 2) as [-> | [-> | ->]] by lia; auto.
Qed.

(** X4. [getRecommendedModule] always recommends one of the three
    possible modules, never nothing. For a derived profile the
    recommendation is the first possible module the user has not
    completed. For a profile that lists 'satellite-imagery' as completed
    it is 'ndvi-analysis' even when that one is completed too. *)
Theorem X4_recommended_module (now : Z) (uid : jsstring) (p : UserProgress) :
  (exists m, getRecommendedModule p = Some m /\ m ∈ possible_module_ids) /\
  (let d := getUserProgressFromDatabase now uid in
   exists m, getRecommendedModule d = Some m /\
             (m ∉ completedModules d) /\
             possible_module_ids !! length (completedModules d) = Some m) /\
  (lit "satellite-imagery" ∈ completedModules p ->
   getRecommendedModule p = Some (lit "ndvi-analysis")).
Proof.
  split; [|split].
  - unfold getRecommendedModule, possible_module_ids. cbv zeta.
    repeat case_bool_decide; cbn [negb]; eexists; (split; [reflexivity|]); set_solver.
  - cbv zeta. unfold getRecommendedModule.
    cbn [getUserProgressFromDatabase completedModules].
    destruct (completed_cases uid) as [-> | [-> | ->]]; eexists;
      (split; [vm_compute; reflexivity|]); (split; [|reflexivity]);
      rewrite ?elem_of_cons, elem_of_nil; intros H;
      repeat (destruct H as [H|H]; [discriminate H|]); exact H.
  - intros Hin. unfold getRecommendedModule. cbv zeta.
    destruct (completedModules p) as [|x l] eqn:Hc; [set_solver|].
    rewrite bool_decide_eq_false_2 by (cbn [length]; lia).
    rewrite bool_decide_eq_true_2 by exact Hin. reflexivity.
Qed.

Lemma X4_witness :
  let p := {| userId := lit "ada"; level := 5; currentXP := 900; totalXP := 5000;
              nextLevel := lit "Master Navigator"; achievements := [];
              completedModules := [lit "ndvi-analysis"; lit "satellite-imagery"];
              streakDays := 3; totalStudyTime := 200 |} in
  lit "satellite-imagery" ∈ completedModules p /\
  getRecommendedModule p = Some (lit "ndvi-analysis") /\
  lit "ndvi-analysis" ∈ completedModules p.
Proof.
  intros p.
  assert (Hin : lit "satellite-imagery" ∈ completedModules p)
    by (cbn [completedModules p]; right; left).
  split; [exact Hin|]. split; [|left].
  destruct (X4_recommended_module 0 [] p) as (_ & _ & H). apply H, Hin.
Defined.

(** X5. The difficulty adjustment and the estimated time of a module's
    content go together and depend on the user's level only: from level
    3 on the adjustment is 'advanced' and the time '15 min', below it the
    adjustment is 'intermediate' (level 2) or 'beginner' and the time
    '25 min'; the module id plays no part. *)
Theorem X5_content_by_level (moduleId moduleId' : jsstring) (p : UserProgress) :
  (3 <= level p ->
   getDifficultyLevel p = lit "advanced" /\ getEstimatedTime moduleId p = lit "15 min") /\
  (level p = 2 ->
   getDifficultyLevel p = lit "intermediate" /\ getEstimatedTime moduleId p = lit "25 min") /\
  (level p <= 1 ->
   getDifficultyLevel p = lit "beginner" /\ getEstimatedTime moduleId p = lit "25 min") /\
  getEstimatedTime moduleId p = getEstimatedTime moduleId' p.
Proof.
  unfold getDifficultyLevel, getEstimatedTime. cbv zeta.
  split; [|split; [|split]]; [intros Hl..|reflexivity];
    destruct (Z.leb_spec 3 (level p)); destruct (Z.leb_spec 2 (level p));
    destruct (Z.ltb_spec 2 (level p)); try lia; split; reflexivity.
Qed.

Lemma X5_witness :
  let p := getUserProgressFromDatabase 0 (lit "guest") in
  3 <= level p /\
  getDifficultyLevel p = lit "advanced" /\
  getEstimatedTime (lit "soil-moisture") p = lit "15 min".
Proof.
  intros p. assert (Hl : 3 <= level p) by (apply Z.leb_le; vm_compute; reflexivity).
  split; [exact Hl|].
  destruct (X5_content_by_level (lit "soil-moisture") [] p) as (H & _). apply H, Hl.
Defined.

(** ** The cache: expiry, invalidation, independence of keys *)

(** X6. An entry read 30 minutes or more after it was written reads as
    null although it is still in the map; a deleted entry reads as null
    at any time; writing again replaces the value and restarts the 30
    minutes; and neither a write nor a delete under one key changes what
    a read under another key returns. *)
Theorem X6_expiry_invalidation_frame {V : Type} (c : gmap jsstring (entry V))
    (now now' : Z) (k k' : jsstring) (v v' : V) :
  (CACHE_DURATION <= now' - now ->
   fst (getCachedData now' k (snd (setCachedData now k v c))) = None /\
   snd (setCachedData now k v c) !! k = Some (Entry v now)) /\
  fst (getCachedData now' k (snd (cacheDelete k c))) = None /\
  snd (setCachedData now' k v' (snd (setCachedData now k v c)))
    = snd (setCachedData now' k v' c) /\
  (k' <> k ->
   fst (getCachedData now' k' (snd (setCachedData now k v c)))
     = fst (getCachedData now' k' c) /\
   fst (getCachedData now' k' (snd (cacheDelete k c)))
     = fst (getCachedData now' k' c)).
Proof.
  split; [|split; [|split]].
  - intros Hold. split; [apply get_after_expiry, Hold|apply lookup_insert_eq].
  - apply get_after_delete.
  - cbn [snd setCachedData]. apply insert_insert_eq.
  - intros Hne. unfold getCachedData. cbn [snd setCachedData cacheDelete].
    rewrite lookup_insert_ne, lookup_delete_ne by congruence.
    destruct (c !! k') as [e|]; [destruct (_ <? _)|]; split; reflexivity.
Qed.

Lemma X6_witness :
  let c : gmap jsstring (entry Z) := ∅ in
  CACHE_DURATION <= 1800000 - 0 /\
  fst (getCachedData 1800000 (lit "k") (snd (setCachedData 0 (lit "k") 7 c))) = None /\
  fst (getCachedData 1799999 (lit "k") (snd (setCachedData 0 (lit "k") 7 c))) = Some 7 /\
  fst (getCachedData 5 (lit "j") (snd (setCachedData 0 (lit "k") 7 c)))
    = fst (getCachedData 5 (lit "j") c).
Proof.
  intros c.
  assert (Hold : CACHE_DURATION <= 1800000 - 0) by (unfold CACHE_DURATION; lia).
  split; [exact Hold|].
  destruct (X6_expiry_invalidation_frame c 0 1800000 (lit "k") (lit "j") 7 7)
    as (Hexp & _).
  destruct (X6_expiry_invalidation_frame c 0 5 (lit "k") (lit "j") 7 7)
    as (_ & _ & _ & Hframe).
  split; [apply Hexp, Hold|]. split; [reflexivity|].
  apply Hframe. discriminate.
Defined.

(** ** What a request may change in the cache *)

Lemma touches_ret {A} keys (a : A) : touches_only keys (ret a).
Proof. intros c k _. reflexivity. Qed.

Lemma touches_bind {A B} keys (m : Hub A) (f : A -> Hub B) :
  touches_only keys m -> (forall a, touches_only keys (f a)) ->
  touches_only keys (bind m f).
Proof.
  intros Hm Hf c k Hk. unfold bind. specialize (Hm c k Hk).
  destruct (m c) as [a c1]. cbn [snd] in Hm. rewrite <- Hm. apply Hf, Hk.
Qed.

Lemma touches_cacheDelete keys k : k ∈ keys -> touches_only keys (cacheDelete k).
Proof.
  intros Hin c k' Hk'. cbn [snd cacheDelete].
  apply lookup_delete_ne. intros ->. exact (Hk' Hin).
Qed.

Lemma touches_fetch {A} keys now key (wrap : A -> jsdata) (fresh : A) :
  key ∈ keys ->
  touches_only keys
    (do cached <- getCachedData now key;
     match cached with
     | Some d => ret d
     | None => run setCachedData now key (wrap fresh); ret (wrap fresh)
     end).
Proof.
  intros Hin c k' Hk'. unfold bind, getCachedData.
  destruct (c !! key) as [e|]; [destruct (_ <? _)|]; cbn [snd ret setCachedData];
    try reflexivity; apply lookup_insert_ne; intros ->; exact (Hk' Hin).
Qed.

Lemma touches_fetchLearningModules keys now lvl uid :
  modules_key lvl uid ∈ keys -> touches_only keys (fetchLearningModules now lvl uid).
Proof. apply (touches_fetch keys now _ DModules). Qed.

Lemma touches_fetchUserProgress keys now uid :
  progress_key uid ∈ keys -> touches_only keys (fetchUserProgress now uid).
Proof. apply (touches_fetch keys now _ DProgress). Qed.

Lemma touches_fetchAssessments keys now uid :
  assessments_key uid ∈ keys -> touches_only keys (fetchAssessments now uid).
Proof. apply (touches_fetch keys now _ DAssessments). Qed.

Ltac touches_step :=
  first
    [ apply touches_ret
    | apply touches_cacheDelete; set_solver
    | apply touches_fetchLearningModules; set_solver
    | apply touches_fetchUserProgress; set_solver
    | apply touches_fetchAssessments; set_solver
    | apply touches_bind; [|intros ?]
    | match goal with
      | |- touches_only _ (match ?x with _ => _ end) => destruct x
      end ].

Lemma keeps_entries_ret {A} now (a : A) : keeps_entries now (ret a).
Proof. intros c k e Hk. exists e. auto. Qed.

Lemma keeps_entries_bind {A B} now (m : Hub A) (f : A -> Hub B) :
  keeps_entries now m -> (forall a, keeps_entries now (f a)) ->
  keeps_entries now (bind m f).
Proof.
  intros Hm Hf c k e Hk. unfold bind.
  destruct (Hm c k e Hk) as (e1 & Hk1 & Hsame1).
  destruct (m c) as [a c1]. cbn [snd] in Hk1.
  destruct (Hf a c1 k e1 Hk1) as (e2 & Hk2 & Hsame2).
  exists e2. split; [exact Hk2|].
  intros Hfresh. specialize (Hsame1 Hfresh). subst e1. auto.
Qed.

Lemma keeps_entries_fetch {A} now key (wrap : A -> jsdata) (fresh : A) :
  keeps_entries now
    (do cached <- getCachedData now key;
     match cached with
     | Some d => ret d
     | None => run setCachedData now key (wrap fresh); ret (wrap fresh)
     end).
Proof.
  intros c k e Hk. unfold bind, getCachedData.
  destruct (c !! key) as [e0|] eqn:Hkey.
  - destruct (Z.ltb_spec (now - timestamp e0) CACHE_DURATION) as [Hlt|Hge];
      cbn [snd ret setCachedData]; [exists e; auto|].
    destruct (decide (key = k)) as [<-|Hne].
    + rewrite lookup_insert_eq. eexists. split; [reflexivity|].
      intros Hfresh. rewrite Hkey in Hk. injection Hk as <-. lia.
    + rewrite lookup_insert_ne by exact Hne. exists e. auto.
  - cbn [snd ret setCachedData]. destruct (decide (key = k)) as [<-|Hne].
    + congruence.
    + rewrite lookup_insert_ne by exact Hne. exists e. auto.
Qed.

Ltac keeps_entries_step :=
  first
    [ apply keeps_entries_ret
    | apply (keeps_entries_fetch _ _ DModules)
    | apply (keeps_entries_fetch _ _ DProgress)
    | apply (keeps_entries_fetch _ _ DAssessments)
    | apply keeps_entries_bind; [|intros ?]
    | match goal with
      | |- keeps_entries _ (match ?x with _ => _ end) => destruct x
      end ].

(** X7. Handling a GET request removes no cache entry and replaces none
    that is still fresh: every key that had an entry has one afterwards,
    and the same one if less than 30 minutes have passed since it was
    written. *)
Theorem X7_GET_keeps_entries (now : Z) (q : list (jsstring * jsstring))
    (c : cache) (k : jsstring) (e : entry jsdata) :
  c !! k = Some e ->
  exists e', snd (GET now q c) !! k = Some e' /\
             (now - timestamp e < CACHE_DURATION -> e' = e).
Proof.
  revert c k e. change (keeps_entries now (GET now q)).
  unfold GET, generateModuleContent, fetchLearningModules, fetchUserProgress,
    fetchAssessments. cbv zeta.
  repeat keeps_entries_step.
Qed.

Lemma X7_witness :
  let q := [(lit "action", lit "progress"); (lit "userId", lit "ada")] in
  let warm := snd (GET 0 q ∅) in
  let e := Entry (DProgress (getUserProgressFromDatabase 0 (lit "ada"))) 0 in
  warm !! progress_key (lit "ada") = Some e /\
  exists e', snd (GET 1799999 q warm) !! progress_key (lit "ada") = Some e' /\
             (1799999 - timestamp e < CACHE_DURATION -> e' = e).
Proof.
  intros q warm e.
  assert (Hk : warm !! progress_key (lit "ada") = Some e) by (vm_compute; reflexivity).
  split; [exact Hk|].
  exact (X7_GET_keeps_entries 1799999 q warm (progress_key (lit "ada")) e Hk).
Defined.

(** X8. Handling a GET request changes the cache under at most four
    keys, all built from the request's own userId: the modules key of the
    requested level, the modules key of level 'all', the progress key and
    the assessments key. *)
Theorem X8_GET_touches_own_keys (now : Z) (q : list (jsstring * jsstring))
    (c : cache) (k : jsstring) :
  let lvl := or_default (searchParams_get (lit "level") q) (lit "all") in
  let uid := or_default (searchParams_get (lit "userId") q) (lit "guest") in
  k <> modules_key (Some lvl) (Some uid) ->
  k <> modules_key (Some (lit "all")) (Some uid) ->
  k <> progress_key uid ->
  k <> assessments_key (Some uid) ->
  snd (GET now q c) !! k = c !! k.
Proof.
  intros lvl uid H1 H2 H3 H4.
  assert (touches_only [modules_key (Some lvl) (Some uid);
                        modules_key (Some (lit "all")) (Some uid);
                        progress_key uid; assessments_key (Some uid)]
            (GET now q)) as Htouch.
  { unfold GET, generateModuleContent. cbv zeta. fold lvl uid.
    repeat touches_step. }
  apply Htouch. rewrite !elem_of_cons, elem_of_nil.
  intros [?|[?|[?|[?|[]]]]]; congruence.
Qed.

Lemma X8_witness :
  let q := [(lit "action", lit "leaderboard"); (lit "userId", lit "ada")] in
  let warm := snd (GET 0 [(lit "action", lit "progress"); (lit "userId", lit "bob")] ∅) in
  progress_key (lit "bob") <> progress_key (lit "ada") /\
  snd (GET 5 q warm) !! progress_key (lit "bob") = warm !! progress_key (lit "bob").
Proof.
  intros q warm. split; [discriminate|].
  apply (X8_GET_touches_own_keys 5 q warm); discriminate.
Defined.

(** X9. Handling a POST request, whatever its body and outcome, changes
    the cache under at most two keys, the progress key and the
    'modules_all' key of the request's own userId. *)
Theorem X9_POST_touches_own_keys (now : Z) (random : Q)
    (q : list (jsstring * jsstring)) (request_body : option json)
    (c : cache) (k : jsstring) :
  let uid := or_default (searchParams_get (lit "userId") q) (lit "guest") in
  k <> progress_key uid -> k <> modules_all_key uid ->
  snd (POST now random q request_body c) !! k = c !! k.
Proof.
  intros uid H1 H2.
  assert (touches_only [progress_key uid; modules_all_key uid]
            (POST now random q request_body)) as Htouch.
  { unfold POST, updateModuleProgress, awardXP, modules_all_key. cbv zeta. fold uid.
    repeat touches_step. }
  apply Htouch. rewrite !elem_of_cons, elem_of_nil.
  intros [?|[?|[]]]; congruence.
Qed.

Lemma X9_witness :
  let warm := snd (GET 0 [(lit "action", lit "assessments"); (lit "userId", lit "ada")] ∅) in
  let body := JObj [(lit "action", JStr (lit "complete-module"));
                    (lit "moduleId", JStr (lit "ndvi-analysis"))] in
  assessments_key (Some (lit "ada")) <> progress_key (lit "ada") /\
  assessments_key (Some (lit "ada")) <> modules_all_key (lit "ada") /\
  snd (POST 5 0 [(lit "userId", lit "ada")] (Some body) warm)
    !! assessments_key (Some (lit "ada"))
  = warm !! assessments_key (Some (lit "ada")).
Proof.
  intros warm body. split; [discriminate|]. split; [discriminate|].
  apply (X9_POST_touches_own_keys 5 0 [(lit "userId", lit "ada")] (Some body) warm);
    discriminate.
Defined.

(** ** What the read actions serve in a reachable state *)

Lemma sound_progress_entry (c : cache) uid e :
  cache_sound c -> c !! progress_key uid = Some e ->
  data e = DProgress (getUserProgressFromDatabase (timestamp e) uid).
Proof.
  intros Hc He.
  destruct (Hc _ _ He) as [(l & u & Hk & _) | [(u & Hk & Hd) | (u & Hk & _)]].
  - exfalso. symmetry in Hk. exact (modules_key_not_progress _ _ _ Hk).
  - apply progress_key_inj in Hk. subst u. exact Hd.
  - exfalso. symmetry in Hk. exact (assessments_key_not_progress _ _ Hk).
Qed.

Lemma sound_assessments_entry (c : cache) uid e :
  cache_sound c -> c !! assessments_key uid = Some e ->
  data e = DAssessments (generateDynamicAssessments uid).
Proof.
  intros Hc He.
  destruct (Hc _ _ He) as [(l & u & Hk & _) | [(u & Hk & _) | (u & Hk & Hd)]].
  - exfalso. unfold modules_key, assessments_key in Hk. simpl in Hk. discriminate.
  - exfalso. exact (assessments_key_not_progress _ _ Hk).
  - exact Hd.
Qed.

Lemma sound_modules_entry (c : cache) lvl uid e :
  cache_sound c -> c !! modules_key lvl uid = Some e ->
  exists lvl' uid', modules_key lvl uid = modules_key lvl' uid' /\
                    data e = DModules (generateDynamicModules lvl' uid').
Proof.
  intros Hc He.
  destruct (Hc _ _ He) as [(l & u & Hk & Hd) | [(u & Hk & _) | (u & Hk & _)]].
  - eauto.
  - exfalso. exact (modules_key_not_progress _ _ _ Hk).
  - exfalso. unfold modules_key, assessments_key in Hk. simpl in Hk. discriminate.
Qed.

(** In a sound cache a progress fetch serves a profile derived less than
    30 minutes ago and leaves it stored under the user's key. *)
Lemma fetchUserProgress_sound (c : cache) now uid :
  cache_sound c ->
  exists t, now - t < CACHE_DURATION /\
    fetchUserProgress now uid c
    = (DProgress (getUserProgressFromDatabase t uid),
       <[progress_key uid := Entry (DProgress (getUserProgressFromDatabase t uid)) t]> c).
Proof.
  intros Hc. unfold fetchUserProgress, bind, getCachedData.
  destruct (c !! progress_key uid) as [e|] eqn:He.
  - pose proof (sound_progress_entry c uid e Hc He) as Hd.
    destruct (Z.ltb_spec (now - timestamp e) CACHE_DURATION) as [Hlt|Hge].
    + exists (timestamp e). split; [exact Hlt|]. cbn [ret]. rewrite <- Hd.
      destruct e as [d t]. cbn [data timestamp]. rewrite insert_id by exact He.
      reflexivity.
    + exists now. split; [unfold CACHE_DURATION; lia|]. reflexivity.
  - exists now. split; [unfold CACHE_DURATION; lia|]. reflexivity.
Qed.

Lemma currentXP_bounds now uid :
  500 <= currentXP (getUserProgressFromDatabase now uid) <= 1499.
Proof.
  cbn [getUserProgressFromDatabase currentXP].
  pose proof (abs_mod_bounds (userHash uid) 1000 ltac:(lia)). lia.
Qed.

(** X10. In every reachable state a progress request is answered with the
    profile of the request's userId as derived at some clock reading less
    than 30 minutes back (the reading of the request itself on a miss):
    level, currentXP, totalXP and streakDays are the derived ones whatever
    was awarded before, and the achievement dates are at most that old. *)
Theorem X10_progress_served (now : Z) (q : list (jsstring * jsstring)) (c : cache) :
  reachable c ->
  searchParams_get (lit "action") q = Some (lit "progress") ->
  let uid := or_default (searchParams_get (lit "userId") q) (lit "guest") in
  exists t p,
    now - t < CACHE_DURATION /\
    p = getUserProgressFromDatabase t uid /\
    fst (GET now q c)
    = {| status := 200;
         body := ProgressBody (DProgress p)
                   {| cached := false; ci_timestamp := toISOString now |} |} /\
    snd (GET now q c) !! progress_key uid = Some (Entry (DProgress p) t) /\
    level p = Z.abs (userHash uid) mod 5 + 1 /\
    currentXP p = Z.abs (userHash uid) mod 1000 + 500 /\
    streakDays p = Z.abs (userHash uid) mod 30 + 1 /\
    Forall (fun a => date a = today t) (achievements p).
Proof.
  intros Hreach Hact uid.
  destruct (fetchUserProgress_sound c now uid (reachable_sound c Hreach))
    as (t & Ht & Hfetch).
  exists t, (getUserProgressFromDatabase t uid).
  split; [exact Ht|]. split; [reflexivity|].
  unfold GET. cbv zeta. rewrite Hact. fold uid.
  change (bool_decide (Some (lit "progress") = Some (lit "modules"))) with false.
  change (bool_decide (Some (lit "progress") = Some (lit "progress"))) with true.
  cbv iota. unfold bind. rewrite Hfetch. cbn [fst snd ret].
  split; [reflexivity|]. split; [apply lookup_insert_eq|].
  cbn [getUserProgressFromDatabase level currentXP streakDays achievements].
  pose proof (abs_mod_bounds (userHash uid) 5 ltac:(lia)).
  repeat split; [lia|apply achievement_dates].
Qed.

Lemma X10_witness :
  let post := handle 0 (ReqPOST (1 # 2) [] (Some (JObj [
    (lit "action", JStr (lit "submit-assessment"));
    (lit "assessmentId", JStr (lit "nasa-fundamentals"));
    (lit "answers", JArr [JNum 1]) ]))) ∅ in
  let q := [(lit "action", lit "progress")] in
  reachable (snd post) /\
  exists t p,
    60000 - t < CACHE_DURATION /\
    fst (GET 60000 q (snd post))
    = ok (ProgressBody (DProgress p)
            {| cached := false; ci_timestamp := toISOString 60000 |}) /\
    currentXP p = 1452.
Proof.
  intros post q.
  assert (Hreach : reachable (snd post)).
  { apply reachable_step, reachable_start. }
  split; [exact Hreach|].
  destruct (X10_progress_served 60000 q (snd post) Hreach eq_refl)
    as (t & p & Ht & _ & Hresp & _ & _ & Hxp & _).
  exists t, p. split; [exact Ht|]. split; [exact Hresp|]. exact Hxp.
Defined.

(** X11. In every reachable state the leaderboard is the five fixed rows
    with the caller as 'You' at rank 3, userRank 3 and totalUsers 1247;
    the caller's row carries the derived currentXP (between 500 and 1499,
    so below the two rows above it) and the title of the derived level. *)
Theorem X11_leaderboard (now : Z) (q : list (jsstring * jsstring)) (c : cache) :
  reachable c ->
  searchParams_get (lit "action") q = Some (lit "leaderboard") ->
  let uid := or_default (searchParams_get (lit "userId") q) (lit "guest") in
  let p := getUserProgressFromDatabase now uid in
  exists rows,
    fst (GET now q c) = {| status := 200; body := LeaderboardBody rows 3 1247 |} /\
    map rank rows = [1; 2; 3; 4; 5] /\
    map name rows = [lit "NASA Explorer"; lit "Farm Innovator"; lit "You";
                     lit "Earth Observer"; lit "Crop Master"] /\
    map row_xp rows = [Some 5420; Some 4890; Some (currentXP p); Some 1180; Some 980] /\
    rows !! 2%nat = Some {| rank := 3; name := lit "You"; row_xp := Some (currentXP p);
                            row_level := getLevelName (level p) |} /\
    500 <= currentXP p < 4890.
Proof.
  intros Hreach Hact uid p.
  destruct (fetchUserProgress_sound c now uid (reachable_sound c Hreach))
    as (t & Ht & Hfetch).
  eexists. split.
  - unfold GET. cbv zeta. rewrite Hact. fold uid.
    change (bool_decide (Some (lit "leaderboard") = Some (lit "modules"))) with false.
    change (bool_decide (Some (lit "leaderboard") = Some (lit "progress"))) with false.
    change (bool_decide (Some (lit "leaderboard") = Some (lit "module-content")))
      with false.
    change (bool_decide (Some (lit "leaderboard") = Some (lit "assessments"))) with false.
    change (bool_decide (Some (lit "leaderboard") = Some (lit "leaderboard"))) with true.
    cbv iota. unfold bind. rewrite Hfetch. cbn [fst snd ret]. reflexivity.
  - cbn [map rank name row_xp currentXP_of levelName_of].
    repeat (split; [reflexivity|]).
    pose proof (currentXP_bounds now uid) as Hb. fold p in Hb. lia.
Qed.

Lemma X11_witness :
  let q := [(lit "action", lit "leaderboard"); (lit "userId", lit "guest")] in
  reachable ∅ /\
  exists rows,
    fst (GET 0 q ∅) = ok (LeaderboardBody rows 3 1247) /\
    rows !! 2%nat = Some {| rank := 3; name := lit "You"; row_xp := Some 1452;
                            row_level := lit "Data Specialist" |}.
Proof.
  intros q. split; [apply reachable_start|].
  destruct (X11_leaderboard 0 q ∅ reachable_start eq_refl)
    as (rows & Hresp & _ & _ & _ & Hyou & _).
  exists rows. split; [exact Hresp|exact Hyou].
Defined.

Lemma fetchAssessments_sound (c : cache) now uid :
  cache_sound c ->
  fst (fetchAssessments now uid c) = DAssessments (generateDynamicAssessments None).
Proof.
  intros Hc. unfold fetchAssessments, bind, getCachedData.
  destruct (c !! assessments_key uid) as [e|] eqn:He; [|reflexivity].
  destruct (_ <? _); [|reflexivity]. cbn [fst ret].
  apply (sound_assessments_entry c uid e Hc He).
Qed.

(** X12. In every reachable state an assessments request is answered, for
    every user, with the same two assessments ('nasa-fundamentals' worth
    200 XP and 'satellite-analysis' worth 350 XP) and an empty list of
    completed assessments. *)
Theorem X12_assessments_served (now : Z) (q : list (jsstring * jsstring)) (c : cache) :
  reachable c ->
  searchParams_get (lit "action") q = Some (lit "assessments") ->
  exists a1 a2,
    fst (GET now q c)
    = {| status := 200; body := AssessmentsBody (DAssessments [a1; a2]) [] |} /\
    s_id a1 = lit "nasa-fundamentals" /\ xpReward a1 = 200 /\
    s_id a2 = lit "satellite-analysis" /\ xpReward a2 = 350.
Proof.
  intros Hreach Hact.
  pose proof (fetchAssessments_sound c now
                (Some (or_default (searchParams_get (lit "userId") q) (lit "guest")))
                (reachable_sound c Hreach)) as Hfetch.
  eexists _, _. split.
  - unfold GET. cbv zeta. rewrite Hact.
    change (bool_decide (Some (lit "assessments") = Some (lit "modules"))) with false.
    change (bool_decide (Some (lit "assessments") = Some (lit "progress"))) with false.
    change (bool_decide (Some (lit "assessments") = Some (lit "module-content")))
      with false.
    change (bool_decide (Some (lit "assessments") = Some (lit "assessments"))) with true.
    cbv iota. unfold bind.
    destruct (fetchAssessments _ _ c) as [d c1]. cbn [fst] in Hfetch. subst d.
    reflexivity.
  - repeat split; reflexivity.
Qed.

Lemma X12_witness :
  let warm := snd (handle 0 (ReqGET [(lit "action", lit "assessments")]) ∅) in
  reachable warm /\
  exists a1 a2,
    fst (GET 9 [(lit "action", lit "assessments"); (lit "userId", lit "ada")] warm)
    = ok (AssessmentsBody (DAssessments [a1; a2]) []) /\
    s_id a1 = lit "nasa-fundamentals" /\ s_id a2 = lit "satellite-analysis".
Proof.
  intros warm.
  assert (Hreach : reachable warm) by apply reachable_step, reachable_start.
  split; [exact Hreach|].
  destruct (X12_assessments_served 9
              [(lit "action", lit "assessments"); (lit "userId", lit "ada")]
              warm Hreach eq_refl) as (a1 & a2 & Hresp & H1 & _ & H2 & _).
  exists a1, a2. auto.
Defined.

(** ** Module content through the route *)

Lemma GET_module_content now q c m :
  searchParams_get (lit "action") q = Some (lit "module-content") ->
  searchParams_get (lit "moduleId") q = Some m -> m <> [] ->
  let uid := or_default (searchParams_get (lit "userId") q) (lit "guest") in
  GET now q c =
  let '(allModules, c1) := fetchLearningModules now (Some (lit "all")) (Some uid) c in
  match find_module allModules m with
  | inr e => ({| status := 500;
                 body := ErrorBody (lit "Failed to fetch learning data") (Some e) |}, c1)
  | inl None => (fail 404 (lit "Module not found"), c1)
  | inl (Some foundModule) =>
      let '(dynamicContent, c2) := generateModuleContent now m uid c1 in
      let '(userProgress, c3) := fetchUserProgress now uid c2 in
      (ok (ModuleContentBody foundModule dynamicContent userProgress), c3)
  end.
Proof.
  intros Hact Hmod Hm uid. unfold GET. cbv zeta. rewrite Hact, Hmod. fold uid.
  change (bool_decide (Some (lit "module-content") = Some (lit "modules"))) with false.
  change (bool_decide (Some (lit "module-content") = Some (lit "progress"))) with false.
  change (bool_decide (Some (lit "module-content") = Some (lit "module-content")))
    with true.
  cbv iota. destruct m as [|a m]; [congruence|].
  unfold bind. destruct (fetchLearningModules _ _ _ c) as [allModules c1].
  destruct (find_module allModules (a :: m)) as [[f|]|e]; reflexivity.
Qed.

Lemma fetchLearningModules_kind (c : cache) now lvl uid :
  cache_sound c -> exists ms, fst (fetchLearningModules now lvl uid c) = DModules ms.
Proof.
  intros Hc. unfold fetchLearningModules, bind, getCachedData.
  destruct (c !! modules_key lvl uid) as [e|] eqn:He; [|eexists; reflexivity].
  destruct (_ <? _); [|eexists; reflexivity]. cbn [fst ret].
  destruct (sound_modules_entry c lvl uid e Hc He) as (l & u & _ & Hd). eauto.
Qed.

Lemma fetchLearningModules_exact (c : cache) now lvl uid :
  (forall d, fst (getCachedData now (modules_key lvl uid) c) = Some d ->
             d = DModules (generateDynamicModules lvl uid)) ->
  fst (fetchLearningModules now lvl uid c) = DModules (generateDynamicModules lvl uid).
Proof.
  intros Hd. unfold fetchLearningModules, bind.
  destruct (getCachedData now (modules_key lvl uid) c) as [[d|] c1] eqn:Hget;
    [|reflexivity].
  cbn [fst ret]. apply Hd. reflexivity.
Qed.

Lemma find_in_catalog md :
  md ∈ baseModules ->
  List.find (fun m => bool_decide (m_id m = m_id md)) baseModules = Some md.
Proof.
  unfold baseModules. rewrite !elem_of_cons, elem_of_nil.
  intros [-> | [-> | [-> | [-> | [-> | []]]]]]; vm_compute; reflexivity.
Qed.

Lemma find_not_in_catalog m :
  m ∉ map m_id baseModules ->
  List.find (fun md => bool_decide (m_id md = m)) baseModules = None.
Proof.
  intros Hnot.
  destruct (List.find _ baseModules) as [md|] eqn:Hfind; [|reflexivity].
  apply find_some in Hfind as [Hin Hid]. apply bool_decide_eq_true_1 in Hid.
  exfalso. apply Hnot. rewrite <- Hid. apply list_elem_of_In, in_map, Hin.
Qed.

(** X13. In every reachable state a module-content request with a
    non-empty moduleId is answered with status 200 or with 404
    'Module not found', never with 500. For a userId without underscore
    the answer is 404 exactly for a moduleId that is not the id of a
    seeded module, and otherwise carries the seeded module of that id. *)
Theorem X13_module_content (now : Z) (q : list (jsstring * jsstring)) (c : cache)
    (m : jsstring) :
  reachable c ->
  searchParams_get (lit "action") q = Some (lit "module-content") ->
  searchParams_get (lit "moduleId") q = Some m -> m <> [] ->
  let uid := or_default (searchParams_get (lit "userId") q) (lit "guest") in
  (status (fst (GET now q c)) = 200 \/
   fst (GET now q c) = {| status := 404;
                          body := ErrorBody (lit "Module not found") None |}) /\
  (95 ∉ uid ->
   (m ∉ map m_id baseModules ->
    fst (GET now q c) = {| status := 404;
                           body := ErrorBody (lit "Module not found") None |}) /\
   (forall md, md ∈ baseModules -> m_id md = m ->
      exists dynamicContent userProgress,
        fst (GET now q c)
        = {| status := 200;
             body := ModuleContentBody (FoundModule md) dynamicContent userProgress |})).
Proof.
  intros Hreach Hact Hmod Hm uid.
  pose proof (reachable_sound c Hreach) as Hsound.
  rewrite (GET_module_content now q c m Hact Hmod Hm). fold uid.
  split.
  - destruct (fetchLearningModules_kind c now (Some (lit "all")) (Some uid) Hsound)
      as (ms & Hms).
    destruct (fetchLearningModules _ _ _ c) as [allModules c1]. cbn [fst] in Hms.
    subst allModules. cbn [find_module].
    destruct (List.find _ ms) as [md|]; cbn [fmap option_fmap option_map];
      [|right; reflexivity].
    destruct (generateModuleContent now m uid c1) as [dyn c2].
    destruct (fetchUserProgress now uid c2) as [up c3]. left. reflexivity.
  - intros Hsep.
    assert (fst (fetchLearningModules now (Some (lit "all")) (Some uid) c)
            = DModules baseModules) as Hall.
    { apply fetchLearningModules_exact. intros d Hd.
      apply (reachable_modules_entry c now (lit "all") uid d Hreach); try assumption.
      - discriminate.
      - apply or_default_nonempty. discriminate.
      - change (lit "all") with [97; 108; 108].
        rewrite !elem_of_cons, elem_of_nil. intros H.
        repeat (destruct H as [H|H]; [discriminate H|]). exact H. }
    destruct (fetchLearningModules _ _ _ c) as [allModules c1]. cbn [fst] in Hall.
    subst allModules. cbn [find_module]. split.
    + intros Hnot. rewrite (find_not_in_catalog m Hnot). reflexivity.
    + intros md Hin <-. rewrite (find_in_catalog md Hin).
      cbn [fmap option_fmap option_map].
      destruct (generateModuleContent now (m_id md) uid c1) as [dyn c2].
      destruct (fetchUserProgress now uid c2) as [up c3]. eauto.
Qed.

Lemma X13_witness :
  let q := [(lit "action", lit "module-content"); (lit "moduleId", lit "climate")] in
  reachable ∅ /\
  (lit "climate" ∉ map m_id baseModules) /\
  fst (GET 0 q ∅) = fail 404 (lit "Module not found").
Proof.
  intros q.
  assert (Hnot : lit "climate" ∉ map m_id baseModules).
  { cbn [map baseModules m_id]. rewrite !elem_of_cons, elem_of_nil. intros H.
    repeat (destruct H as [H|H]; [discriminate H|]). exact H. }
  split; [apply reachable_start|]. split; [exact Hnot|].
  destruct (X13_module_content 0 q ∅ (lit "climate") reachable_start eq_refl eq_refl)
    as (_ & H); [discriminate|].
  destruct H as (H404 & _).
  - change (95 ∉ [103; 117; 101; 115; 116]).
    rewrite !elem_of_cons, elem_of_nil. intros H.
    repeat (destruct H as [H|H]; [discriminate H|]). exact H.
  - apply H404, Hnot.
Defined.

(** ** Write actions *)

(** X14. The XP a write action reports back is the derived currentXP of
    the user, |hash| mod 1000 + 500, whatever is awarded: complete-module
    with a non-empty string moduleId answers xpAwarded 150 and newXP equal
    to that value, submit-assessment answers newTotalXP equal to it for
    every score; both leave the progress entry freshly derived and
    stamped with the clock reading of the request. *)
Theorem X14_awards_do_not_accumulate (now : Z) (random : Q)
    (q : list (jsstring * jsstring)) (body : json) (m : jsstring) (c : cache) :
  let uid := or_default (searchParams_get (lit "userId") q) (lit "guest") in
  let p := getUserProgressFromDatabase now uid in
  let derivedXP := Z.abs (userHash uid) mod 1000 + 500 in
  (get_field body (lit "action") = Some (JStr (lit "complete-module")) ->
   get_field body (lit "moduleId") = Some (JStr m) -> m <> [] ->
   fst (POST now random q (Some body) c)
   = {| status := 200;
        body := ModuleCompletedBody (lit "Module completed successfully") 150
                  (Some derivedXP) |} /\
   snd (POST now random q (Some body) c) !! progress_key uid
   = Some (Entry (DProgress p) now)) /\
  (get_field body (lit "action") = Some (JStr (lit "submit-assessment")) ->
   truthy (get_field body (lit "assessmentId")) = true ->
   truthy (get_field body (lit "answers")) = true ->
   (exists score xp passed,
      fst (POST now random q (Some body) c)
      = {| status := 200; body := AssessmentBody score xp passed (Some derivedXP) |} /\
      (xp = 100 \/ xp = 200)) /\
   snd (POST now random q (Some body) c) !! progress_key uid
   = Some (Entry (DProgress p) now)).
Proof.
  intros uid p derivedXP. split.
  - intros Hact Hmod Hm. unfold POST. cbv zeta. fold uid.
    rewrite (get_field_object _ _ _ Hact), Hact, Hmod.
    cbn [template_ok stringifies negb truthy].
    change (strict_eq _ (lit "start-module")) with false.
    change (strict_eq _ (lit "complete-module")) with true. cbv iota.
    rewrite bool_decide_eq_false_2 by exact Hm. cbn [negb].
    unfold bind, updateModuleProgress, awardXP, bind.
    cbn [template_ok stringifies cacheDelete ret].
    rewrite fetchUserProgress_miss by apply lookup_delete_eq.
    cbn [fst snd currentXP_of]. split; [reflexivity|apply lookup_insert_eq].
  - intros Hact Hid Hans. unfold POST. cbv zeta. fold uid.
    rewrite (get_field_object _ _ _ Hact), Hact, Hid, Hans.
    cbn [template_ok stringifies negb orb].
    change (strict_eq _ (lit "start-module")) with false.
    change (strict_eq _ (lit "complete-module")) with false.
    change (strict_eq _ (lit "submit-assessment")) with true. cbv iota.
    unfold bind, awardXP, bind. cbn [cacheDelete ret].
    rewrite fetchUserProgress_miss by apply lookup_delete_eq.
    cbn [fst snd currentXP_of]. split; [|apply lookup_insert_eq].
    eexists _, _, _. split; [reflexivity|].
    destruct (70 <? mockScoreOf random); auto.
Qed.

Lemma X14_witness :
  let body := JObj [(lit "action", JStr (lit "complete-module"));
                    (lit "moduleId", JStr (lit "soil-moisture"))] in
  let once := POST 0 0 [] (Some body) ∅ in
  let twice := POST 1 0 [] (Some body) (snd once) in
  fst once = ok (ModuleCompletedBody (lit "Module completed successfully") 150 (Some 1452))
  /\ fst twice = fst once.
Proof.
  intros body once twice.
  destruct (X14_awards_do_not_accumulate 0 0 [] body (lit "soil-moisture") ∅)
    as [H1 _].
  destruct (X14_awards_do_not_accumulate 1 0 [] body (lit "soil-moisture") (snd once))
    as [H2 _].
  destruct H1 as [H1 _]; [reflexivity|reflexivity|discriminate|].
  destruct H2 as [H2 _]; [reflexivity|reflexivity|discriminate|].
  split; [exact H1|]. unfold twice. rewrite H2. symmetry. exact H1.
Defined.

(** X15. A write action that lacks a required parameter is refused with
    status 400 and leaves the cache as it was: start-module and
    complete-module without a truthy moduleId answer 'Module ID required',
    submit-assessment without a truthy assessmentId or without truthy
    answers answers 'Assessment ID and answers required'; so does the
    module-content read without a moduleId or with an empty one. *)
Theorem X15_missing_parameter (now : Z) (random : Q) (q : list (jsstring * jsstring))
    (body : json) (c : cache) :
  (get_field body (lit "action") = Some (JStr (lit "start-module")) \/
   get_field body (lit "action") = Some (JStr (lit "complete-module")) ->
   truthy (get_field body (lit "moduleId")) = false ->
   POST now random q (Some body) c
   = ({| status := 400; body := ErrorBody (lit "Module ID required") None |}, c)) /\
  (get_field body (lit "action") = Some (JStr (lit "submit-assessment")) ->
   truthy (get_field body (lit "assessmentId")) = false \/
   truthy (get_field body (lit "answers")) = false ->
   POST now random q (Some body) c
   = ({| status := 400;
         body := ErrorBody (lit "Assessment ID and answers required") None |}, c)) /\
  (searchParams_get (lit "action") q = Some (lit "module-content") ->
   searchParams_get (lit "moduleId") q = None \/
   searchParams_get (lit "moduleId") q = Some [] ->
   GET now q c
   = ({| status := 400; body := ErrorBody (lit "Module ID required") None |}, c)).
Proof.
  split; [|split].
  - intros [Hact|Hact] Hmod; unfold POST; cbv zeta;
      rewrite (get_field_object _ _ _ Hact), Hact, Hmod; reflexivity.
  - intros Hact Hmiss. unfold POST. cbv zeta.
    rewrite (get_field_object _ _ _ Hact), Hact.
    cbn [template_ok stringifies negb].
    change (strict_eq _ (lit "start-module")) with false.
    change (strict_eq _ (lit "complete-module")) with false.
    change (strict_eq _ (lit "submit-assessment")) with true. cbv iota.
    destruct Hmiss as [-> | ->]; [reflexivity|].
    rewrite orb_true_r. reflexivity.
  - intros Hact Hmod. unfold GET. cbv zeta. rewrite Hact.
    change (bool_decide (Some (lit "module-content") = Some (lit "modules"))) with false.
    change (bool_decide (Some (lit "module-content") = Some (lit "progress"))) with false.
    change (bool_decide (Some (lit "module-content") = Some (lit "module-content")))
      with true.
    cbv iota. destruct Hmod as [-> | ->]; reflexivity.
Qed.

Lemma X15_witness :
  let body := JObj [(lit "action", JStr (lit "submit-assessment"));
                    (lit "assessmentId", JStr (lit "nasa-fundamentals"));
                    (lit "answers", JNum 0)] in
  truthy (get_field body (lit "answers")) = false /\
  POST 0 0 [] (Some body) ∅
  = (fail 400 (lit "Assessment ID and answers required"), ∅).
Proof.
  intros body. split; [reflexivity|].
  destruct (X15_missing_parameter 0 0 [] body ∅) as (_ & H & _).
  apply H; [reflexivity|right; reflexivity].
Defined.

(** X16. A POST whose body cannot be used is answered with status 500
    'Failed to process request' and leaves the cache as it was: a body
    that is not JSON, the JSON value null, and a body whose action cannot
    be written into the log line (an object with a member named
    toString). *)
Theorem X16_POST_internal_failure (now : Z) (random : Q)
    (q : list (jsstring * jsstring)) (body : json) (c : cache) :
  POST now random q None c
  = ({| status := 500;
        body := ErrorBody (lit "Failed to process request") (Some SyntaxError_json) |}, c) /\
  POST now random q (Some JNull) c
  = ({| status := 500;
        body := ErrorBody (lit "Failed to process request")
                  (Some TypeError_destructure) |}, c) /\
  (is_null body = false -> template_ok (get_field body (lit "action")) = false ->
   POST now random q (Some body) c
   = ({| status := 500;
         body := ErrorBody (lit "Failed to process request")
                   (Some TypeError_template) |}, c)).
Proof.
  split; [reflexivity|]. split; [reflexivity|].
  intros Hnull Htpl. unfold POST. cbv zeta. rewrite Hnull, Htpl. reflexivity.
Qed.

Lemma X16_witness :
  let body := JObj [(lit "action", JObj [(lit "toString", JNum 1)])] in
  template_ok (get_field body (lit "action")) = false /\
  status (fst (POST 0 0 [] (Some body) ∅)) = 500.
Proof.
  intros body. split; [reflexivity|].
  destruct (X16_POST_internal_failure 0 0 [] body ∅) as (_ & _ & H).
  rewrite H; reflexivity.
Defined.

(** X17. start-module and complete-module report success whether or not
    the progress update went through. With a truthy moduleId that cannot
    be written into the log line (an object with a member named
    toString), [updateModuleProgress] fails before it invalidates
    anything: start-module still answers success with xpAwarded 50 and
    the cache is untouched, and complete-module answers xpAwarded 150
    with the XP of whatever progress the untouched cache serves. *)
Theorem X17_update_failure_is_swallowed (now : Z) (random : Q)
    (q : list (jsstring * jsstring)) (body : json) (c : cache) :
  truthy (get_field body (lit "moduleId")) = true ->
  template_ok (get_field body (lit "moduleId")) = false ->
  let uid := or_default (searchParams_get (lit "userId") q) (lit "guest") in
  (get_field body (lit "action") = Some (JStr (lit "start-module")) ->
   POST now random q (Some body) c
   = ({| status := 200;
         body := ModuleStartedBody (lit "Module started successfully") 50 |}, c)) /\
  (get_field body (lit "action") = Some (JStr (lit "complete-module")) ->
   POST now random q (Some body) c
   = ({| status := 200;
         body := ModuleCompletedBody (lit "Module completed successfully") 150
                   (currentXP_of (fst (fetchUserProgress now uid c))) |},
      snd (fetchUserProgress now uid c))).
Proof.
  intros Htruthy Htpl uid. split; intros Hact; unfold POST; cbv zeta; fold uid;
    rewrite (get_field_object _ _ _ Hact), Hact, Htruthy;
    cbn [template_ok stringifies negb].
  - change (strict_eq _ (lit "start-module")) with true. cbv iota.
    unfold bind, updateModuleProgress. rewrite Htpl. reflexivity.
  - change (strict_eq _ (lit "start-module")) with false.
    change (strict_eq _ (lit "complete-module")) with true. cbv iota.
    unfold bind, updateModuleProgress. rewrite Htpl. cbn [ret].
    destruct (fetchUserProgress now uid c) as [d c1]. reflexivity.
Qed.

Lemma X17_witness :
  let body := JObj [(lit "action", JStr (lit "start-module"));
                    (lit "moduleId", JObj [(lit "toString", JBool true)])] in
  let warm := snd (GET 0 [(lit "action", lit "progress")] ∅) in
  is_Some (warm !! progress_key (lit "guest")) /\
  POST 1 0 [] (Some body) warm
  = (ok (ModuleStartedBody (lit "Module started successfully") 50), warm).
Proof.
  intros body warm. split; [eexists; vm_compute; reflexivity|].
  destruct (X17_update_failure_is_swallowed 1 0 [] body warm) as [H _];
    [reflexivity|reflexivity|].
  apply H. reflexivity.
Defined.

Lemma fetchUserProgress_hit (c : cache) now uid d t :
  c !! progress_key uid = Some (Entry d t) -> now - t < CACHE_DURATION ->
  fetchUserProgress now uid c = (d, c).
Proof.
  intros He Hlt. unfold fetchUserProgress, bind, getCachedData. rewrite He.
  cbn [timestamp data]. destruct (Z.ltb_spec (now - t) CACHE_DURATION); [reflexivity|lia].
Qed.

(** X18. In every reachable state a successful module-content response
    is personalised, never the fallback content: its userProgress is the
    profile of the request's userId derived less than 30 minutes back,
    and its tips, recommendation, difficulty adjustment and estimated
    time are computed from that profile; there are three tips when the
    streak is longer than 7 days and two otherwise. *)
Theorem X18_module_content_personalised (now : Z) (q : list (jsstring * jsstring))
    (c : cache) (m : jsstring) (found : found_item) (dyn : ModuleContent)
    (served : jsdata) :
  reachable c ->
  searchParams_get (lit "action") q = Some (lit "module-content") ->
  searchParams_get (lit "moduleId") q = Some m -> m <> [] ->
  fst (GET now q c) = {| status := 200; body := ModuleContentBody found dyn served |} ->
  let uid := or_default (searchParams_get (lit "userId") q) (lit "guest") in
  exists t, now - t < CACHE_DURATION /\
    let p := getUserProgressFromDatabase t uid in
    served = DProgress p /\
    dyn = {| personalizedTips := generatePersonalizedTips p;
             recommendedNext := getRecommendedModule p;
             difficultyAdjustment := getDifficultyLevel p;
             estimatedTime := getEstimatedTime m p |} /\
    length (personalizedTips dyn) = if 7 <? streakDays p then 3%nat else 2%nat.
Proof.
  intros Hreach Hact Hmod Hm Hresp uid.
  rewrite (GET_module_content now q c m Hact Hmod Hm) in Hresp. fold uid in Hresp.
  pose proof (keeps_fetchLearningModules now (Some (lit "all")) (Some uid) c
                (reachable_sound c Hreach)) as Hsound1.
  destruct (fetchLearningModules _ _ _ c) as [allModules c1]. cbn [snd] in Hsound1.
  destruct (find_module allModules m) as [[f|]|e]; [|discriminate Hresp..].
  unfold generateModuleContent, bind in Hresp.
  destruct (fetchUserProgress_sound c1 now uid Hsound1) as (t & Ht & Hfetch).
  rewrite Hfetch in Hresp. cbn [ret] in Hresp.
  rewrite (fetchUserProgress_hit _ now uid _ t (lookup_insert_eq _ _ _) Ht) in Hresp.
  cbn [fst] in Hresp. injection Hresp as _ <- <-.
  exists t. split; [exact Ht|]. cbv zeta. split; [reflexivity|]. split; [reflexivity|].
  cbn [personalizedTips]. unfold generatePersonalizedTips.
  destruct (7 <? streakDays _); reflexivity.
Qed.

Lemma X18_witness :
  let q := [(lit "action", lit "module-content"); (lit "moduleId", lit "ndvi-analysis")] in
  reachable ∅ /\
  exists found dyn served,
    fst (GET 0 q ∅) = ok (ModuleContentBody found dyn served) /\
    length (personalizedTips dyn) = 3%nat /\
    estimatedTime dyn = lit "15 min".
Proof.
  intros q. split; [apply reachable_start|].
  destruct (fst (GET 0 q ∅)) as [st [| |found dyn served| | | | | |]] eqn:Hget;
    try (vm_compute in Hget; discriminate Hget).
  assert (st = 200) as -> by (vm_compute in Hget; congruence).
  destruct (X18_module_content_personalised 0 q ∅ (lit "ndvi-analysis") found dyn served
              reachable_start eq_refl eq_refl ltac:(discriminate) Hget)
    as (t & _ & _ & Hdyn & Hlen).
  exists found, dyn, served. split; [reflexivity|].
  vm_compute in Hget. injection Hget as _ Hd _. subst dyn. split; reflexivity.
Defined.

(** ** Every response is a success or an error *)

Lemma answers_ret (r : response) : well_formed r -> answers_well (ret r).
Proof. intros Hr c. exact Hr. Qed.

Lemma answers_bind {A} (m : Hub A) (f : A -> Hub response) :
  (forall a, answers_well (f a)) -> answers_well (bind m f).
Proof.
  intros Hf c. unfold bind. destruct (m c) as [a c1]. apply Hf.
Qed.

Ltac answers_step :=
  first
    [ apply answers_bind; intros ?
    | apply answers_ret;
      first [ left; split; reflexivity
            | right; split; [auto|reflexivity] ]
    | match goal with
      | |- answers_well (match ?x with _ => _ end) => destruct x
      end ].

(** X19. Every response of the route is either a success, status 200
    with a data body, or an error, status 400, 404 or 500 with an error
    body, in every state of the cache and for every request. *)
Theorem X19_responses_well_formed (now : Z) (r : request) (c : cache) :
  well_formed (fst (handle now r c)).
Proof.
  revert c. change (answers_well (handle now r)).
  destruct r as [q|random q b]; cbn [handle].
  - unfold GET. cbv zeta. repeat answers_step.
  - unfold POST. cbv zeta. repeat answers_step.
Qed.

(** ** The hash stays exact; keys per user *)

(** X20. The accumulator of the userId hash grows by at most 2^31 + 65535
    in magnitude per code unit, so for every userId of up to 2^21 code
    units the hash is an integer of magnitude below 2^53 and the
    double-precision arithmetic of the reducer is exact. *)
Theorem X20_hash_within_double_range (s : jsstring) :
  wf_string s ->
  Z.abs (userHash s) <= Z.of_nat (length s) * (2^31 + 65535) /\
  (Z.of_nat (length s) <= 2^21 -> Z.abs (userHash s) < 2^53).
Proof.
  intros Hs. unfold userHash.
  pose proof (fold_hash_magnitude s 0 Hs) as Hb. simpl Z.abs in Hb.
  split; [lia|]. intros Hlen. lia.
Qed.

Lemma X20_witness :
  wf_string (lit "farmer1") /\
  Z.abs (userHash (lit "farmer1")) <= 7 * (2^31 + 65535) /\
  2^31 <= Z.abs (userHash (lit "farmer1")).
Proof.
  assert (Hwf : wf_string (lit "farmer1"))
    by (unfold wf_string; simpl; repeat (constructor; [lia|]); constructor).
  split; [exact Hwf|]. split.
  - exact (proj1 (X20_hash_within_double_range (lit "farmer1") Hwf)).
  - apply Z.leb_le. vm_compute. reflexivity.
Defined.

Lemma or_default_some (s d : jsstring) : s <> [] -> or_default (Some s) d = s.
Proof. destruct s; [congruence|reflexivity]. Qed.

(** X21. Cache entries are shared between users only through modules
    keys: the progress keys of two different userIds differ, so do the
    assessments keys of two different non-empty userIds, and so do the
    modules keys of two different (level, userId) pairs when neither
    level contains an underscore; and a key of one family (modules,
    progress, assessments) is never a key of another. *)
Theorem X21_keys_per_user (l l' u u' : jsstring) (x y : option jsstring) :
  (progress_key u = progress_key u' -> u = u') /\
  (u <> [] -> u' <> [] ->
   assessments_key (Some u) = assessments_key (Some u') -> u = u') /\
  (l <> [] -> l' <> [] -> u <> [] -> u' <> [] -> 95 ∉ l -> 95 ∉ l' ->
   modules_key (Some l) (Some u) = modules_key (Some l') (Some u') ->
   l = l' /\ u = u') /\
  modules_key x y <> progress_key u /\
  modules_key x y <> assessments_key (Some u) /\
  assessments_key x <> progress_key u.
Proof.
  split; [apply progress_key_inj|]. split.
  { intros Hu Hu'. unfold assessments_key.
    rewrite !or_default_some by assumption. apply app_inv_head. }
  split.
  { intros Hl Hl' Hu Hu' Hs Hs'. unfold modules_key.
    rewrite !or_default_some by assumption. intros Heq.
    apply app_inv_head in Heq.
    exact (split_first_sep 95 l l' u u' Hs Hs' Heq). }
  split; [apply modules_key_not_progress|]. split.
  - unfold modules_key, assessments_key. simpl. discriminate.
  - apply assessments_key_not_progress.
Qed.

Lemma X21_witness :
  (95 ∉ lit "all") /\
  modules_key (Some (lit "all")) (Some (lit "ada"))
  = modules_key (Some (lit "all")) (Some (lit "ada")) /\
  (lit "all" = lit "all" /\ lit "ada" = lit "ada").
Proof.
  assert (Hsep : 95 ∉ lit "all").
  { cbn [lit]. rewrite !elem_of_cons, elem_of_nil. intros H.
    repeat (destruct H as [H|H]; [discriminate H|]). exact H. }
  split; [exact Hsep|]. split; [reflexivity|].
  destruct (X21_keys_per_user (lit "all") (lit "all") (lit "ada") (lit "ada")
              None None) as (_ & _ & H & _).
  apply H; try discriminate; try exact Hsep. reflexivity.
Defined.
